(** * Attendance: the data access layer of [backend.py]

    A shallow embedding of class [AttendanceDatabase] and proofs about its
    operations.  The SQLite store becomes a record of tables (lists of rows
    in insertion order); a method becomes a function from a store (and the
    clock, where it reads it) to a result and a new store.  The Python
    dictionaries passed in by callers become records: a key read with
    [data['k']] is a plain field, a key read
    with [data.get('k', ...)] is an [option] field whose [None] stands for a
    key that is not supplied.  Nullable columns are [option] fields whose
    [None] is SQL NULL, and comparisons against them follow SQL's
    three-valued logic.  TEXT values are byte strings compared bytewise, as
    SQLite's BINARY collation does; dates and times are stored as the TEXT
    the callers pass.  A method that calls [datetime.now()] takes the clock
    reading as an argument, one reading per call.  An integer handed to
    SQLite must fit 64 bits, or the statement raises; a Python float is an
    IEEE binary64 number, and a method without [try] returns its value or
    raises. *)

From Stdlib Require Import ZArith String Ascii List SpecFloat.
From stdpp Require Import gmap strings list fin_maps pretty sorting.

Local Open Scope string_scope.
Local Open Scope Z_scope.

(** ** SQL truth values and comparisons *)

Module Sql.

(** The value of a WHERE condition: [None] is NULL (unknown). *)
Definition tv := option bool.

Definition tv_and (a b : tv) : tv :=
  match a, b with
  | Some false, _ | _, Some false => Some false
  | Some true, Some true => Some true
  | _, _ => None
  end.

Definition tv_or (a b : tv) : tv :=
  match a, b with
  | Some true, _ | _, Some true => Some true
  | Some false, Some false => Some false
  | _, _ => None
  end.

(** [x = y] in SQL: NULL as soon as one side is NULL. *)
Definition eq {A} `{EqDecision A} (x y : option A) : tv :=
  match x, y with
  | Some a, Some b => Some (bool_decide (a = b))
  | _, _ => None
  end.

(** A row is selected when its condition is true, not when it is NULL. *)
Definition holds (c : tv) : bool :=
  match c with Some true => true | _ => false end.

(** [lo <= x] and [x BETWEEN lo AND hi] on TEXT values. *)
Definition text_ge (x lo : string) : bool := String.leb lo x.
Definition between (lo hi x : string) : bool :=
  String.leb lo x && String.leb x hi.

(** What a failed statement raises: sqlite3.IntegrityError for a UNIQUE
    or PRIMARY KEY column, OverflowError for an integer parameter outside
    64 bits. [str] is Python's [str(e)]. *)
Inductive error :=
| UniqueFailed (column : string)
| IntegerOverflow.

Definition str (e : error) : string :=
  match e with
  | UniqueFailed c => "UNIQUE constraint failed: " ++ c
  | IntegerOverflow => "Python int too large to convert to SQLite INTEGER"
  end.

(** The integers [execute] can bind: those of a signed 64-bit word. *)
Definition int64 (n : Z) : bool := (- 2 ^ 63 <=? n) && (n <? 2 ^ 63).
Definition bindable (o : option Z) : bool :=
  match o with Some n => int64 n | None => true end.

(** [GROUP BY key] with one aggregate: one output row per distinct key,
    the aggregate taken over the rows of that key. *)
Definition group_by {A K V} `{EqDecision K}
    (key : A → K) (agg : list A → V) (rows : list A) : list (K * V) :=
  (λ k, (k, agg (filter (λ r, key r = k) rows))) <$> remove_dups (key <$> rows).

(** [COUNT( * )] and [COUNT(DISTINCT e)]; the latter skips NULLs. *)
Definition count {A} (rows : list A) : Z := Z.of_nat (length rows).
Definition count_distinct {A K} `{EqDecision K}
    (e : A → option K) (rows : list A) : Z :=
  Z.of_nat (length (remove_dups (omap e rows))).

(** [ORDER BY]: a stable insertion sort under [le]. *)
Fixpoint insert_sorted {A} (le : A → A → bool) (x : A) (l : list A) : list A :=
  match l with
  | [] => [x]
  | y :: l' => if le x y then x :: l else y :: insert_sorted le x l'
  end.
Definition order_by {A} (le : A → A → bool) (rows : list A) : list A :=
  foldr (insert_sorted le) [] rows.

(** [date(d, '-n days')] on a calendar date, printed as YYYY-MM-DD. *)
Definition is_leap (y : Z) : bool :=
  (y mod 4 =? 0) && (negb (y mod 100 =? 0) || (y mod 400 =? 0)).
Definition days_in_month (y m : Z) : Z :=
  if m =? 2 then (if is_leap y then 29 else 28)
  else if (m =? 4) || (m =? 6) || (m =? 9) || (m =? 11) then 30
  else 31.
Definition prev_day (t : Z * Z * Z) : Z * Z * Z :=
  let '(y, m, d) := t in
  if 1 <? d then (y, m, d - 1)
  else if 1 <? m then (y, m - 1, days_in_month y (m - 1))
  else (y - 1, 12, 31).
Definition days_before (n : nat) (t : Z * Z * Z) : Z * Z * Z :=
  Nat.iter n prev_day t.

End Sql.

(** ** Python values *)

Module Py.

(** [{row[0]: row[1] for row in rows}]: a later row overrides an earlier
    one with the same key. *)
Definition dict_of_rows {K V} `{Countable K} (rows : list (K * V)) : gmap K V :=
  list_to_map (reverse rows).

(** [sum(d.values())]. *)
Definition sum_values {K} `{Countable K} (d : gmap K Z) : Z :=
  foldr Z.add 0 ((map_to_list d).*2).

(** Truth of an optional string: [None] and [''] are false. *)
Definition truthy (o : option string) : bool :=
  match o with
  | Some s => negb (bool_decide (s = ""))
  | None => false
  end.

(** An exception that leaves a method, by its class: no code here reads
    the message of one. *)
Inductive exception :=
| ZeroDivisionError
| OverflowError
| ValueError.

(** What a call without [try] does: return a value or raise. *)
Inductive result (A : Type) :=
| Return (a : A)
| Raise (e : exception).
Arguments Return {A} a.
Arguments Raise {A} e.

(** Floats are IEEE 754 binary64 numbers. *)
Definition prec : Z := 53.
Definition emax : Z := 1024.

(** A number a method hands back: an [int] or a [float]. *)
Inductive number :=
| Int (n : Z)
| Float (f : spec_float).

(** [float(n)] for an integer that a float can hold. *)
Definition float_of_int (n : Z) : spec_float :=
  binary_normalize prec emax n 0 false.

(** [a / b] on integers: the quotient rounded once to the nearest float,
    ties to even; ZeroDivisionError for [b = 0], OverflowError when the
    rounded quotient would lie beyond the largest float. *)
Definition truediv (a b : Z) : result spec_float :=
  if b =? 0 then Raise ZeroDivisionError
  else if a =? 0 then Return (S754_zero (b <? 0))
  else if (2 ^ 1025 - 2 ^ 971) * Z.abs b <=? 2 * Z.abs a then
    Raise OverflowError
  else
    let '(m, e, l) := SFdiv_core_binary prec emax (Z.abs a) 0 (Z.abs b) 0 in
    Return (binary_round_aux prec emax (xorb (a <? 0) (b <? 0)) m e l).

(** [x * n] for a float [x] and an integer [n] that a float can hold. *)
Definition float_mul_int (x : spec_float) (n : Z) : spec_float :=
  SFmul prec emax x (float_of_int n).

(** [x < y] on floats. *)
Definition float_lt (x y : spec_float) : bool := SFltb x y.

(** [datetime.now()], as far as the code formats it. *)
Record datetime := {
  year : Z; month : Z; day : Z; hour : Z; minute : Z; second : Z
}.

Definition digit (n : Z) : ascii :=
  ascii_of_nat (48 + Z.to_nat (n mod 10)).
Definition d2 (n : Z) : string :=
  String (digit (n / 10)) (String (digit n) "").
Definition d4 (n : Z) : string :=
  String (digit (n / 1000)) (String (digit (n / 100)) (d2 n)).

(** [strftime('%Y-%m-%d')] and [strftime('%Y%m%d_%H%M%S')]. *)
Definition ymd (y m d : Z) : string := d4 y ++ "-" ++ d2 m ++ "-" ++ d2 d.
Definition strftime_date (t : datetime) : string := ymd (year t) (month t) (day t).
Definition strftime_stamp (t : datetime) : string :=
  d4 (year t) ++ d2 (month t) ++ d2 (day t) ++ "_"
    ++ d2 (hour t) ++ d2 (minute t) ++ d2 (second t).

(** SQLite's [date(today, '-7 days')] for [today = strftime_date t]. *)
Definition date_minus_7_days (t : datetime) : string :=
  let '(y, m, d) := Sql.days_before 7 (year t, month t, day t) in ymd y m d.

(** [t.replace(day=1)]. *)
Definition replace_day1 (t : datetime) : datetime :=
  {| year := year t; month := month t; day := 1;
     hour := hour t; minute := minute t; second := second t |}.

End Py.

(** ** The tables *)

Record professor := {
  p_id : string;
  p_name : string;
  p_department : string;
  p_contact : option string;
  p_email : option string;
  p_date_registered : string;
  p_is_active : option Z;
  p_password_hash : option string;
  p_role : option string
}.

(** Columns [latitude] and [longitude] are never written or inspected by
    any method and are left out. *)
Record attendance_record := {
  ar_id : Z;
  ar_professor_id : string;
  ar_session_id : option Z;
  ar_date : string;
  ar_time_in : string;
  ar_time_out : option string;
  ar_status : option string;
  ar_venue : option string;
  ar_remarks : option string;
  ar_session_type : option string;
  ar_device_id : option string
}.

(** Column [created_at], filled by the engine's clock, is left out here
    and in [admin]. *)
Record attendance_session := {
  as_id : Z;
  as_session_type : string;
  as_venue : string;
  as_remarks : option string;
  as_date : string;
  as_start_time : string;
  as_end_time : option string;
  as_created_by : option string;
  as_qr_code_data : option string;
  as_is_active : option Z
}.

Record course := {
  c_id : Z;
  c_course_code : string;
  c_course_name : string;
  c_department : option string;
  c_units : option Z;
  c_semester : option string;
  c_academic_year : option string
}.

Record admin := {
  a_id : Z;
  a_username : string;
  a_password_hash : string;
  a_full_name : string;
  a_role : option string;
  a_permissions : option string
}.

(** A row of [system_logs], with the columns [log_action] writes. *)
Record log_entry := {
  l_id : Z;
  l_user_id : option string;
  l_action : string;
  l_details : option string
}.

(** The store: one list of rows per table, oldest row first, and the
    [sqlite_sequence] counters of the AUTOINCREMENT keys. *)
Record database := {
  professors : list professor;
  attendance_records : list attendance_record;
  attendance_sessions : list attendance_session;
  courses : list course;
  admins : list admin;
  system_logs : list log_entry;
  sqlite_sequence : gmap string Z
}.

#[global] Instance professor_eq_dec : EqDecision professor.
Proof. solve_decision. Defined.
#[global] Instance attendance_record_eq_dec : EqDecision attendance_record.
Proof. solve_decision. Defined.
#[global] Instance course_eq_dec : EqDecision course.
Proof. solve_decision. Defined.
#[global] Instance admin_eq_dec : EqDecision admin.
Proof. solve_decision. Defined.
#[global] Instance log_entry_eq_dec : EqDecision log_entry.
Proof. solve_decision. Defined.

Definition empty_db : database :=
  {| professors := []; attendance_records := []; attendance_sessions := [];
     courses := []; admins := []; system_logs := []; sqlite_sequence := ∅ |}.

(** [INTEGER PRIMARY KEY AUTOINCREMENT]: one more than the largest key the
    table holds or has ever held. *)
Definition next_rowid (table : string) (ids : list Z) (db : database) : Z :=
  1 + foldr Z.max (default 0 (sqlite_sequence db !! table)) ids.

Definition bump (table : string) (id : Z) (db : database) : gmap string Z :=
  <[table := id]> (sqlite_sequence db).

(** What a statement inside [try] yields: a value, or an exception that
    the enclosing [except] turns into a failure message. *)
Inductive outcome (A : Type) :=
| Done (a : A)
| Raised (e : Sql.error).
Arguments Done {A} a.
Arguments Raised {A} e.

(** ** Utility: the audit log *)

(** [log_action(action, details, user_id=None)]. *)
Definition log_action (action details : string) (user_id : option string)
    (db : database) : database :=
  let id := next_rowid "system_logs" (l_id <$> system_logs db) db in
  {| professors := professors db;
     attendance_records := attendance_records db;
     attendance_sessions := attendance_sessions db;
     courses := courses db;
     admins := admins db;
     system_logs := system_logs db ++
       [{| l_id := id; l_user_id := user_id; l_action := action;
           l_details := Some details |}];
     sqlite_sequence := bump "system_logs" id db |}.

(** ** Professor management *)

(** The argument of [add_professor]. *)
Record professor_data := {
  pd_id : string;
  pd_name : string;
  pd_department : string;
  pd_contact : option string;
  pd_email : option string
}.

(** [professor_data.get('email', '')]. *)
Definition pd_email_or_empty (d : professor_data) : string :=
  default "" (pd_email d).

(** [SELECT id FROM professors WHERE id = ? OR email = ?]. *)
Definition select_professor_by_id_or_email (id email : string)
    (db : database) : list string :=
  p_id <$> filter (λ p, Sql.holds
      (Sql.tv_or (Sql.eq (Some (p_id p)) (Some id))
                 (Sql.eq (p_email p) (Some email))))
    (professors db).

(** [INSERT INTO professors (...)], under [id TEXT PRIMARY KEY] and
    [email TEXT UNIQUE]; the columns not named take their defaults. *)
Definition insert_professor (id name department contact email registered : string)
    (db : database) : outcome database :=
  if bool_decide (id ∈ p_id <$> professors db) then
    Raised (Sql.UniqueFailed "professors.id")
  else if bool_decide (Some email ∈ p_email <$> professors db) then
    Raised (Sql.UniqueFailed "professors.email")
  else
    Done {| professors := professors db ++
              [{| p_id := id; p_name := name; p_department := department;
                  p_contact := Some contact; p_email := Some email;
                  p_date_registered := registered;
                  p_is_active := Some 1; p_password_hash := None;
                  p_role := Some "professor" |}];
            attendance_records := attendance_records db;
            attendance_sessions := attendance_sessions db;
            courses := courses db;
            admins := admins db;
            system_logs := system_logs db;
            sqlite_sequence := sqlite_sequence db |}.

Definition add_professor (d : professor_data) (now : Py.datetime)
    (db : database) : (bool * string) * database :=
  match head (select_professor_by_id_or_email (pd_id d) (pd_email_or_empty d) db) with
  | Some _ => ((false, "Professor ID or email already exists"), db)
  | None =>
    match insert_professor (pd_id d) (pd_name d) (pd_department d)
            (default "" (pd_contact d)) (pd_email_or_empty d)
            (Py.strftime_date now) db with
    | Done db1 =>
      ((true, "Professor added successfully"),
       log_action "ADD_PROFESSOR" ("Added professor " ++ pd_id d) None db1)
    | Raised e => ((false, "Error adding professor: " ++ Sql.str e), db)
    end
  end.

(** ** Attendance management *)

(** The argument of [record_attendance]. *)
Record attendance_data := {
  ad_professor_id : string;
  ad_session_id : option Z;
  ad_date : string;
  ad_time_in : string;
  ad_status : option string;
  ad_venue : option string;
  ad_session_type : option string;
  ad_remarks : option string
}.

(** [WHERE professor_id = ? AND session_id = ? AND date = ?]. *)
Definition same_attendance (pid : string) (sid : option Z) (date : string)
    (r : attendance_record) : Sql.tv :=
  Sql.tv_and
    (Sql.tv_and (Sql.eq (Some (ar_professor_id r)) (Some pid))
                (Sql.eq (ar_session_id r) sid))
    (Sql.eq (Some (ar_date r)) (Some date)).

Definition select_attendance (pid : string) (sid : option Z) (date : string)
    (db : database) : list Z :=
  ar_id <$> filter (λ r, Sql.holds (same_attendance pid sid date r))
              (attendance_records db).

(** [INSERT INTO attendance_records (...)]: no uniqueness constraint, and
    foreign keys are not enforced on the connection. *)
Definition insert_attendance (pid : string) (sid : option Z)
    (date time_in status venue session_type remarks : string)
    (db : database) : database :=
  let id := next_rowid "attendance_records" (ar_id <$> attendance_records db) db in
  {| professors := professors db;
     attendance_records := attendance_records db ++
       [{| ar_id := id; ar_professor_id := pid; ar_session_id := sid;
           ar_date := date; ar_time_in := time_in; ar_time_out := None;
           ar_status := Some status; ar_venue := Some venue;
           ar_remarks := Some remarks; ar_session_type := Some session_type;
           ar_device_id := None |}];
     attendance_sessions := attendance_sessions db;
     courses := courses db;
     admins := admins db;
     system_logs := system_logs db;
     sqlite_sequence := bump "attendance_records" id db |}.

Definition record_attendance (d : attendance_data) (db : database)
    : (bool * string) * database :=
  if negb (Sql.bindable (ad_session_id d)) then
    ((false, "Error recording attendance: " ++ Sql.str Sql.IntegerOverflow), db)
  else
  match head (select_attendance (ad_professor_id d) (ad_session_id d) (ad_date d) db) with
  | Some _ => ((false, "Attendance already recorded for this session"), db)
  | None =>
    let db1 :=
      insert_attendance (ad_professor_id d) (ad_session_id d) (ad_date d)
        (ad_time_in d) (default "Present" (ad_status d))
        (default "" (ad_venue d)) (default "" (ad_session_type d))
        (default "" (ad_remarks d)) db in
    ((true, "Attendance recorded successfully"),
     log_action "RECORD_ATTENDANCE"
       ("Professor " ++ ad_professor_id d ++ " attendance recorded") None db1)
  end.

(** [get_attendance_records]: a row of [SELECT ar.*, p.name, p.department]. *)
Record attendance_row := {
  row_record : attendance_record;
  row_name : string;
  row_department : string
}.

(** The keys [get_attendance_records] looks up in its [filters]. *)
Record filters := {
  f_date : option string;
  f_professor_id : option string;
  f_session_type : option string;
  f_department : option string;
  f_start_date : option string;
  f_end_date : option string
}.

(** [FROM attendance_records ar JOIN professors p ON ar.professor_id = p.id]. *)
Definition join_professors (rs : list attendance_record) (ps : list professor)
    : list (attendance_record * professor) :=
  rs ≫= λ r, (λ p, (r, p)) <$> filter (λ p, ar_professor_id r = p_id p) ps.

(** [query += " AND ..."] when the filter key is set. *)
Definition and_when (b : bool) (c : Sql.tv) (acc : Sql.tv) : Sql.tv :=
  if b then Sql.tv_and acc c else acc.

Definition where_filters (f : option filters) (x : attendance_record * professor)
    : Sql.tv :=
  let '(r, p) := x in
  match f with
  | None => Some true
  | Some f =>
    and_when (Py.truthy (f_start_date f) && Py.truthy (f_end_date f))
      (Some (Sql.between (default "" (f_start_date f))
                         (default "" (f_end_date f)) (ar_date r)))
    (and_when (Py.truthy (f_department f))
      (Sql.eq (Some (p_department p)) (f_department f))
    (and_when (Py.truthy (f_session_type f))
      (Sql.eq (ar_session_type r) (f_session_type f))
    (and_when (Py.truthy (f_professor_id f))
      (Sql.eq (Some (ar_professor_id r)) (f_professor_id f))
    (and_when (Py.truthy (f_date f))
      (Sql.eq (Some (ar_date r)) (f_date f))
      (Some true)))))
  end.

(** [ORDER BY ar.date DESC, ar.time_in DESC]. *)
Definition date_time_desc (x y : attendance_record * professor) : bool :=
  match String.compare (ar_date y.1) (ar_date x.1) with
  | Lt => true
  | Gt => false
  | Eq => String.leb (ar_time_in y.1) (ar_time_in x.1)
  end.

Definition get_attendance_records (f : option filters) (db : database)
    : list attendance_row :=
  (λ x, {| row_record := x.1; row_name := p_name x.2;
           row_department := p_department x.2 |})
  <$> Sql.order_by date_time_desc
        (filter (λ x, Sql.holds (where_filters f x))
           (join_professors (attendance_records db) (professors db))).

(** [get_attendance_summary]: the dictionary it returns. *)
Record summary := {
  total_attendance : Z;
  by_department : gmap string Z;
  by_session_type : gmap (option string) Z;
  top_professors : list (string * Z);
  date_range : string
}.

(** [WHERE date BETWEEN ? AND ?]. *)
Definition in_range (a b : string) (rs : list attendance_record)
    : list attendance_record :=
  filter (λ r, Sql.between a b (ar_date r)) rs.

(** [GROUP BY ar.professor_id] selecting [p.name, COUNT( * )]: the name is
    read from a row of the group. *)
Definition name_and_count (g : list (attendance_record * professor)) : string * Z :=
  (default "" (head ((λ x, p_name x.2) <$> g)), Sql.count g).

Definition get_attendance_summary (start_date end_date : string)
    (db : database) : summary :=
  let joined :=
    filter (λ x, Sql.between start_date end_date (ar_date x.1))
      (join_professors (attendance_records db) (professors db)) in
  {| total_attendance :=
       Sql.count (in_range start_date end_date (attendance_records db));
     by_department :=
       Py.dict_of_rows (Sql.group_by (λ x, p_department x.2) Sql.count joined);
     by_session_type :=
       Py.dict_of_rows
         (Sql.group_by ar_session_type Sql.count
            (in_range start_date end_date (attendance_records db)));
     top_professors :=
       take 10 (Sql.order_by (λ x y, y.2 <=? x.2)
                  ((Sql.group_by (λ x, ar_professor_id x.1) name_and_count joined).*2));
     date_range := start_date ++ " to " ++ end_date |}.

(** ** Course management *)

(** The argument of [add_course]. *)
Record course_data := {
  cd_course_code : string;
  cd_course_name : string;
  cd_department : option string;
  cd_units : option Z;
  cd_semester : option string;
  cd_academic_year : option string
}.

(** [INSERT INTO courses (...)], under [course_code TEXT NOT NULL UNIQUE];
    [units] is the one integer parameter. *)
Definition insert_course (code name department : string) (units : Z)
    (semester academic_year : string) (db : database) : outcome database :=
  if negb (Sql.int64 units) then
    Raised Sql.IntegerOverflow
  else if bool_decide (code ∈ c_course_code <$> courses db) then
    Raised (Sql.UniqueFailed "courses.course_code")
  else
    let id := next_rowid "courses" (c_id <$> courses db) db in
    Done {| professors := professors db;
            attendance_records := attendance_records db;
            attendance_sessions := attendance_sessions db;
            courses := courses db ++
              [{| c_id := id; c_course_code := code; c_course_name := name;
                  c_department := Some department; c_units := Some units;
                  c_semester := Some semester;
                  c_academic_year := Some academic_year |}];
            admins := admins db;
            system_logs := system_logs db;
            sqlite_sequence := bump "courses" id db |}.

Definition add_course (d : course_data) (db : database)
    : (bool * string) * database :=
  match insert_course (cd_course_code d) (cd_course_name d)
          (default "" (cd_department d)) (default 3 (cd_units d))
          (default "1st" (cd_semester d))
          (default "2024-2025" (cd_academic_year d)) db with
  | Done db1 => ((true, "Course added successfully"), db1)
  | Raised e => ((false, "Error adding course: " ++ Sql.str e), db)
  end.

(** ** Admin authentication *)

Section Admin.

(** [hashlib.sha256(password.encode()).hexdigest()]. *)
Variable sha256_hexdigest : string → string.

(** [INSERT INTO admins (...)], under [username TEXT UNIQUE NOT NULL]. *)
Definition insert_admin (username password_hash full_name role : string)
    (db : database) : outcome database :=
  if bool_decide (username ∈ a_username <$> admins db) then
    Raised (Sql.UniqueFailed "admins.username")
  else
    let id := next_rowid "admins" (a_id <$> admins db) db in
    Done {| professors := professors db;
            attendance_records := attendance_records db;
            attendance_sessions := attendance_sessions db;
            courses := courses db;
            admins := admins db ++
              [{| a_id := id; a_username := username;
                  a_password_hash := password_hash; a_full_name := full_name;
                  a_role := Some role; a_permissions := None |}];
            system_logs := system_logs db;
            sqlite_sequence := bump "admins" id db |}.

Definition create_admin (username password full_name : string)
    (role : option string) (db : database) : (bool * string) * database :=
  match insert_admin username (sha256_hexdigest password) full_name
          (default "admin" role) db with
  | Done db1 => ((true, "Admin created successfully"), db1)
  | Raised _ => ((false, "Username already exists"), db)
  end.

(** [SELECT * FROM admins WHERE username = ? AND password_hash = ?]. *)
Definition select_admin (username password_hash : string) (db : database)
    : list admin :=
  filter (λ a, Sql.holds
      (Sql.tv_and (Sql.eq (Some (a_username a)) (Some username))
                  (Sql.eq (Some (a_password_hash a)) (Some password_hash))))
    (admins db).

Definition authenticate_admin (username password : string) (db : database)
    : (bool * option admin) * database :=
  match head (select_admin username (sha256_hexdigest password) db) with
  | Some a =>
    ((true, Some a),
     log_action "ADMIN_LOGIN" ("Admin " ++ username ++ " logged in") None db)
  | None => ((false, None), db)
  end.

End Admin.

(** ** Reporting *)

(** [SELECT COUNT( * ) FROM professors WHERE is_active = 1]. *)
Definition active_professors (db : database) : list professor :=
  filter (λ p, Sql.holds (Sql.eq (p_is_active p) (Some 1))) (professors db).

(** [SELECT COUNT(DISTINCT professor_id) FROM attendance_records WHERE date = ?]. *)
Definition attended_on (date : string) (db : database) : Z :=
  Sql.count_distinct (λ r, Some (ar_professor_id r))
    (filter (λ r, ar_date r = date) (attendance_records db)).

(** [FROM professors p LEFT JOIN attendance_records ar
     ON p.id = ar.professor_id AND ar.date = ?]. *)
Definition left_join_attendance (date : string) (ps : list professor)
    (rs : list attendance_record) : list (professor * option attendance_record) :=
  ps ≫= λ p,
    match filter (λ r, p_id p = ar_professor_id r ∧ ar_date r = date) rs with
    | [] => [(p, None)]
    | ms => (λ r, (p, Some r)) <$> ms
    end.

(** [(attended / total * 100) if total > 0 else 0]: a float from the
    division, the integer 0 from the guard. *)
Definition rate (attended total : Z) : Py.result Py.number :=
  if 0 <? total then
    match Py.truediv attended total with
    | Py.Return q => Py.Return (Py.Float (Py.float_mul_int q 100))
    | Py.Raise e => Py.Raise e
    end
  else Py.Return (Py.Int 0).

(** [get_daily_attendance_stats]: the dictionary it returns. *)
Record daily_stats := {
  ds_date : string;
  ds_total_professors : Z;
  ds_attended_today : Z;
  ds_attendance_rate : Py.number;
  ds_by_department : gmap string Z;
  ds_absent_today : Z
}.

Definition get_daily_attendance_stats (date : option string)
    (now : Py.datetime) (db : database) : Py.result daily_stats :=
  let date := if Py.truthy date then default "" date else Py.strftime_date now in
  let total_professors := Sql.count (active_professors db) in
  let attended_today := attended_on date db in
  let department_stats :=
    Py.dict_of_rows
      (Sql.group_by (λ x, p_department x.1)
         (Sql.count_distinct (λ x, ar_professor_id <$> x.2))
         (filter (λ x, Sql.holds (Sql.eq (p_is_active x.1) (Some 1)))
            (left_join_attendance date (professors db) (attendance_records db)))) in
  match rate attended_today total_professors with
  | Py.Return attendance_rate =>
    Py.Return
      {| ds_date := date;
         ds_total_professors := total_professors;
         ds_attended_today := attended_today;
         ds_attendance_rate := attendance_rate;
         ds_by_department := department_stats;
         ds_absent_today := total_professors - attended_today |}
  | Py.Raise e => Py.Raise e
  end.

(** [get_dashboard_stats]: the dictionary it returns. *)
Record dashboard_stats := {
  dash_total_professors : Z;
  dash_today_attendance : Z;
  dash_month_attendance : Z;
  dash_active_sessions : Z;
  dash_attendance_rate : Py.number;
  dash_recent_attendance : gmap string Z
}.

(** [ORDER BY date DESC] on the grouped rows. *)
Definition key_desc (x y : string * Z) : bool := String.leb y.1 x.1.

(** [SELECT date, COUNT( * ) FROM attendance_records
     WHERE date >= date(?, '-7 days') GROUP BY date ORDER BY date DESC]. *)
Definition recent_rows (now : Py.datetime) (db : database) : list (string * Z) :=
  Sql.order_by key_desc
    (Sql.group_by ar_date Sql.count
       (filter (λ r, Sql.text_ge (ar_date r) (Py.date_minus_7_days now))
          (attendance_records db))).

Definition get_dashboard_stats (now : Py.datetime) (db : database)
    : Py.result dashboard_stats :=
  let total_professors := Sql.count (active_professors db) in
  let today := Py.strftime_date now in
  let today_attendance := attended_on today db in
  let month_start := Py.strftime_date (Py.replace_day1 now) in
  match rate today_attendance total_professors with
  | Py.Return attendance_rate =>
    Py.Return
      {| dash_total_professors := total_professors;
         dash_today_attendance := today_attendance;
         dash_month_attendance :=
           Sql.count (in_range month_start today (attendance_records db));
         dash_active_sessions :=
           Sql.count (filter (λ s, as_date s = today ∧
                                   Sql.holds (Sql.eq (as_is_active s) (Some 1)))
                        (attendance_sessions db));
         dash_attendance_rate := attendance_rate;
         dash_recent_attendance := Py.dict_of_rows (recent_rows now db) |}
  | Py.Raise e => Py.Raise e
  end.

(** ** Export *)

(** A workbook written by [pd.ExcelWriter]: its single sheet and the rows
    of the data frame. Column widths are presentation and not kept. *)
Record workbook := {
  wb_sheet_name : string;
  wb_rows : list attendance_row
}.

(** The store together with the files of the working directory. *)
Record world := {
  store : database;
  files : gmap string workbook
}.

(** How the block [with pd.ExcelWriter(output_path, engine='openpyxl')]
    ended: the workbook was saved under the path, or pandas or openpyxl
    raised, leaving the files as given. *)
Inductive excel_outcome :=
| Saved
| Refused (e : Py.exception) (remaining : gmap string workbook).

Section Spreadsheet.

(** pandas' writer: what it does with a path, a workbook and the files
    present. *)
Variable excel_writer : string → workbook → gmap string workbook → excel_outcome.

Definition export_to_excel (f : option filters) (output_path : option string)
    (now : Py.datetime) (w : world) : Py.result string * world :=
  let output_path :=
    if Py.truthy output_path then default "" output_path
    else "attendance_report_" ++ Py.strftime_stamp now ++ ".xlsx" in
  match get_attendance_records f (store w) with
  | [] => (Py.Return "", w)
  | records =>
    let book := {| wb_sheet_name := "Attendance Records";
                   wb_rows := records |} in
    match excel_writer output_path book (files w) with
    | Saved =>
      (Py.Return output_path,
       {| store := log_action "EXPORT_EXCEL" ("Exported to " ++ output_path)
                     None (store w);
          files := <[output_path := book]> (files w) |})
    | Refused e remaining =>
      (Py.Raise e, {| store := store w; files := remaining |})
    end
  end.

End Spreadsheet.

(** [os.path.splitext(path)[1]] on POSIX paths: the part of the last path
    component from its last dot on, unless only dots precede that dot. *)
Fixpoint tail_after_last (c : ascii) (s : string) : option string :=
  match s with
  | EmptyString => None
  | String x r =>
    match tail_after_last c r with
    | Some t => Some t
    | None => if Ascii.eqb x c then Some r else None
    end
  end.

Fixpoint all_dots (n : nat) (s : string) : bool :=
  match n, s with
  | O, _ => true
  | S n', String x r => Ascii.eqb x "." && all_dots n' r
  | S _, EmptyString => true
  end.

Definition splitext_ext (path : string) : string :=
  let name := default path (tail_after_last "/" path) in
  match tail_after_last "." name with
  | None => ""
  | Some t =>
    if all_dots (String.length name - S (String.length t)) name then ""
    else String "." t
  end.

(** [x in y] on strings. *)
Fixpoint str_contains (y x : string) : bool :=
  String.prefix x y ||
  match y with
  | EmptyString => false
  | String _ r => str_contains r x
  end.

(** [OpenpyxlWriter.check_extension(ext)]: the extension without its dot
    must occur in ".xlsx" or ".xlsm". *)
Definition check_extension (ext : string) : bool :=
  let ext := match ext with
             | String "." r => r
             | _ => ext
             end in
  str_contains ".xlsx" ext || str_contains ".xlsm" ext.

(** pandas' ExcelWriter with the openpyxl engine, as far as the path
    decides: the constructor raises ValueError for an extension it does not
    support, before any file is touched; otherwise the workbook is saved. *)
Definition openpyxl_writer (path : string) (book : workbook)
    (present : gmap string workbook) : excel_outcome :=
  let ext := splitext_ext path in
  if check_extension ext then Saved
  else Refused Py.ValueError present.

(** ** Schema constraints and sample data *)

(** The uniqueness constraints of the schema: [professors.id] (primary
    key), [professors.email], [courses.course_code] and [admins.username]
    (UNIQUE; NULLs are exempt). *)
Record db_wf (db : database) : Prop := {
  wf_professor_id : NoDup (p_id <$> professors db);
  wf_professor_email : NoDup (omap p_email (professors db));
  wf_course_code : NoDup (c_course_code <$> courses db);
  wf_admin_username : NoDup (a_username <$> admins db)
}.

(** The clock reading 2024-03-05 09:07:30. *)
Definition clock_2024_03_05 : Py.datetime :=
  {| Py.year := 2024; Py.month := 3; Py.day := 5;
     Py.hour := 9; Py.minute := 7; Py.second := 30 |}.

(** Four days later. *)
Definition clock_2024_03_09 : Py.datetime :=
  {| Py.year := 2024; Py.month := 3; Py.day := 9;
     Py.hour := 18; Py.minute := 0; Py.second := 0 |}.

(** Rows and stores for the examples. *)
Definition mk_professor (id name department : string) (email : option string)
    (active : Z) : professor :=
  {| p_id := id; p_name := name; p_department := department;
     p_contact := Some ""; p_email := email;
     p_date_registered := "2024-01-01"; p_is_active := Some active;
     p_password_hash := None; p_role := Some "professor" |}.

Definition mk_record (id : Z) (pid : string) (sid : option Z) (date : string)
    : attendance_record :=
  {| ar_id := id; ar_professor_id := pid; ar_session_id := sid;
     ar_date := date; ar_time_in := "08:00:00"; ar_time_out := None;
     ar_status := Some "Present"; ar_venue := Some ""; ar_remarks := Some "";
     ar_session_type := Some ""; ar_device_id := None |}.

Definition with_tables (ps : list professor) (rs : list attendance_record)
    : database :=
  {| professors := ps; attendance_records := rs; attendance_sessions := [];
     courses := []; admins := []; system_logs := []; sqlite_sequence := ∅ |}.

(** A check-in that names no session. *)
Definition walk_in : attendance_data :=
  {| ad_professor_id := "P1"; ad_session_id := None; ad_date := "2024-03-05";
     ad_time_in := "08:00:00"; ad_status := None; ad_venue := None;
     ad_session_type := None; ad_remarks := None |}.

(** The same check-in for session 4. *)
Definition session_check_in : attendance_data :=
  {| ad_professor_id := "P1"; ad_session_id := Some 4; ad_date := "2024-03-05";
     ad_time_in := "08:00:00"; ad_status := None; ad_venue := None;
     ad_session_type := None; ad_remarks := None |}.

(** A store whose only professor was registered with no email, and callers
    arriving with the same id, with no email, and with fresh data. *)
Definition registered_without_email : database :=
  with_tables [mk_professor "P1" "Ada" "Math" (Some "") 1] [].

Definition ada_again : professor_data :=
  {| pd_id := "P1"; pd_name := "Ada L."; pd_department := "Physics";
     pd_contact := None; pd_email := Some "ada@example.org" |}.

Definition no_email_newcomer : professor_data :=
  {| pd_id := "P2"; pd_name := "Bob"; pd_department := "Physics";
     pd_contact := None; pd_email := None |}.

Definition newcomer : professor_data :=
  {| pd_id := "P2"; pd_name := "Bob"; pd_department := "Physics";
     pd_contact := None; pd_email := Some "bob@example.org" |}.

(** A course given by code and name only. *)
Definition algebra : course_data :=
  {| cd_course_code := "MATH101"; cd_course_name := "Algebra";
     cd_department := None; cd_units := None; cd_semester := None;
     cd_academic_year := None |}.

(** A stand-in digest for running the model: any function of the password
    will do, the code only compares its results. *)
Definition toy_digest (password : string) : string := "#" ++ password.

Definition one_admin : database :=
  {| professors := []; attendance_records := []; attendance_sessions := [];
     courses := [];
     admins := [{| a_id := 1; a_username := "root";
                   a_password_hash := toy_digest "s3cret";
                   a_full_name := "Operator"; a_role := Some "admin";
                   a_permissions := None |}];
     system_logs := []; sqlite_sequence := {["admins" := 1]} |}.

(** A store whose only professor is deactivated but has checked in. *)
Definition nobody_active : database :=
  with_tables [mk_professor "P1" "Ada" "Math" (Some "ada@example.org") 0]
              [mk_record 1 "P1" None "2024-03-05"].

(** The people seen on a date: every professor_id with a record that day. *)
Definition seen_on (date : string) (db : database) : gset string :=
  list_to_set (ar_professor_id <$> filter (λ r, ar_date r = date)
                                     (attendance_records db)).

(** One active professor who stayed away; check-ins by a deactivated
    professor and by an id that is not registered. *)
Definition strangers : database :=
  with_tables [mk_professor "P1" "Ada" "Math" (Some "ada@example.org") 1;
               mk_professor "P2" "Bob" "Math" (Some "bob@example.org") 0]
              [mk_record 1 "P2" None "2024-03-05";
               mk_record 2 "X1" None "2024-03-05"].

Definition empty_world : world := {| store := empty_db; files := ∅ |}.

(** One record by a registered professor, one by an unknown id. *)
Definition strangers_and_ada : world :=
  {| store :=
       with_tables [mk_professor "P1" "Ada" "Math" (Some "ada@example.org") 1]
                   [mk_record 1 "X1" None "2024-03-05";
                    mk_record 2 "P1" None "2024-03-05"];
     files := ∅ |}.

(** Callers' data with the optional keys left out. *)
Definition check_in (pid date : string) : attendance_data :=
  {| ad_professor_id := pid; ad_session_id := None; ad_date := date;
     ad_time_in := "08:00:00"; ad_status := None; ad_venue := None;
     ad_session_type := None; ad_remarks := None |}.

Definition register (id name department email : string) : professor_data :=
  {| pd_id := id; pd_name := name; pd_department := department;
     pd_contact := None; pd_email := Some email |}.

(** Professors P1 (department A) and P2 (department B) with three check-ins,
    built through the operations themselves. *)
Definition two_departments : database :=
  let db := (add_professor (register "P1" "Ada" "A" "ada@example.org")
               clock_2024_03_05 empty_db).2 in
  let db := (add_professor (register "P2" "Bob" "B" "bob@example.org")
               clock_2024_03_05 db).2 in
  let db := (record_attendance (check_in "P1" "2024-01-01") db).2 in
  let db := (record_attendance (check_in "P1" "2024-01-02") db).2 in
  (record_attendance (check_in "P2" "2024-01-01") db).2.

(** The same store after a check-in under an id nobody registered. *)
Definition two_departments_and_a_stranger : database :=
  (record_attendance (check_in "X9" "2024-01-02") two_departments).2.

(** A check-in dated a month after the day of the query. *)
Definition dated_next_month : database :=
  (record_attendance (check_in "P1" "2024-04-05")
     (record_attendance (check_in "P1" "2024-03-05") empty_db).2).2.

(** ** Further operations: look-ups, sessions, assignments, the report *)

(** [get_professor]: the row of [SELECT * FROM professors WHERE id = ?], or
    [None]. *)
Definition get_professor (professor_id : string) (db : database)
    : option professor :=
  head (filter (λ p, Sql.holds (Sql.eq (Some (p_id p)) (Some professor_id)))
          (professors db)).

(** [ORDER BY name]. *)
Definition name_asc (x y : professor) : bool :=
  String.leb (p_name x) (p_name y).

Definition get_all_professors (department_filter : option string)
    (db : database) : list professor :=
  if Py.truthy department_filter then
    Sql.order_by name_asc
      (filter (λ p, Sql.holds
           (Sql.tv_and (Sql.eq (Some (p_department p)) department_filter)
                       (Sql.eq (p_is_active p) (Some 1))))
         (professors db))
  else
    Sql.order_by name_asc (active_professors db).

(** Python's [str] of an integer, as the f-strings print it. *)
Definition str_of_int (n : Z) : string := pretty n.

(** The argument of [create_attendance_session]. *)
Record session_data := {
  sd_session_type : string;
  sd_venue : string;
  sd_remarks : option string;
  sd_date : string;
  sd_start_time : string;
  sd_end_time : option string;
  sd_created_by : option string;
  sd_qr_code_data : option string
}.

(** [create_attendance_session]: the third component is
    [cursor.lastrowid]. *)
Definition create_attendance_session (d : session_data) (db : database)
    : (bool * string * Z) * database :=
  let session_id :=
    next_rowid "attendance_sessions" (as_id <$> attendance_sessions db) db in
  let db1 :=
    {| professors := professors db;
       attendance_records := attendance_records db;
       attendance_sessions := attendance_sessions db ++
         [{| as_id := session_id; as_session_type := sd_session_type d;
             as_venue := sd_venue d;
             as_remarks := Some (default "" (sd_remarks d));
             as_date := sd_date d; as_start_time := sd_start_time d;
             as_end_time := sd_end_time d;
             as_created_by := Some (default "system" (sd_created_by d));
             as_qr_code_data := Some (default "" (sd_qr_code_data d));
             as_is_active := Some 1 |}];
       courses := courses db;
       admins := admins db;
       system_logs := system_logs db;
       sqlite_sequence := bump "attendance_sessions" session_id db |} in
  ((true, "Session created successfully", session_id),
   log_action "CREATE_SESSION" ("Created session " ++ str_of_int session_id)
     None db1).

(** [ORDER BY start_time]. *)
Definition start_time_asc (x y : attendance_session) : bool :=
  String.leb (as_start_time x) (as_start_time y).

(** [get_active_sessions]:
    [WHERE is_active = 1 AND date = ? ORDER BY start_time]. *)
Definition get_active_sessions (now : Py.datetime) (db : database)
    : list attendance_session :=
  Sql.order_by start_time_asc
    (filter (λ s, Sql.holds
         (Sql.tv_and (Sql.eq (as_is_active s) (Some 1))
                     (Sql.eq (Some (as_date s)) (Some (Py.strftime_date now)))))
       (attendance_sessions db)).

(** A row of table [professor_courses]. *)
Record professor_course := {
  pc_id : Z;
  pc_professor_id : string;
  pc_course_id : Z;
  pc_schedule : option string;
  pc_room : option string
}.

(** The store with its seventh table. The operations above never touch
    [professor_courses]; the two below work on this record. *)
Record campus := {
  tables : database;
  professor_courses : list professor_course
}.

(** [SELECT id FROM professor_courses WHERE professor_id = ? AND course_id = ?]. *)
Definition select_assignment (professor_id : string) (course_id : Z)
    (c : campus) : list Z :=
  pc_id <$> filter (λ a, Sql.holds
      (Sql.tv_and (Sql.eq (Some (pc_professor_id a)) (Some professor_id))
                  (Sql.eq (Some (pc_course_id a)) (Some course_id))))
    (professor_courses c).

Definition assign_course_to_professor (professor_id : string) (course_id : Z)
    (schedule room : option string) (c : campus) : (bool * string) * campus :=
  if negb (Sql.int64 course_id) then
    ((false, "Error assigning course: " ++ Sql.str Sql.IntegerOverflow), c)
  else
  match head (select_assignment professor_id course_id c) with
  | Some _ => ((false, "Course already assigned to this professor"), c)
  | None =>
    let db := tables c in
    let id := next_rowid "professor_courses" (pc_id <$> professor_courses c) db in
    ((true, "Course assigned successfully"),
     {| tables :=
          {| professors := professors db;
             attendance_records := attendance_records db;
             attendance_sessions := attendance_sessions db;
             courses := courses db;
             admins := admins db;
             system_logs := system_logs db;
             sqlite_sequence := bump "professor_courses" id db |};
        professor_courses := professor_courses c ++
          [{| pc_id := id; pc_professor_id := professor_id;
              pc_course_id := course_id; pc_schedule := schedule;
              pc_room := room |}] |})
  end.

(** [get_professor_schedule]: a row of
    [SELECT c.course_code, c.course_name, pc.schedule, pc.room, c.department]. *)
Record schedule_row := {
  sr_course_code : string;
  sr_course_name : string;
  sr_schedule : option string;
  sr_room : option string;
  sr_department : option string
}.

(** Ascending order on a nullable TEXT column: NULL sorts first. *)
Definition null_first_leb (x y : option string) : bool :=
  match x, y with
  | None, _ => true
  | Some _, None => false
  | Some a, Some b => String.leb a b
  end.

(** [FROM professor_courses pc JOIN courses c ON pc.course_id = c.id]. *)
Definition join_courses (pcs : list professor_course) (cs : list course)
    : list (professor_course * course) :=
  pcs ≫= λ a, (λ c, (a, c)) <$> filter (λ c, pc_course_id a = c_id c) cs.

Definition get_professor_schedule (professor_id : string) (c : campus)
    : list schedule_row :=
  (λ x, {| sr_course_code := c_course_code x.2;
           sr_course_name := c_course_name x.2;
           sr_schedule := pc_schedule x.1; sr_room := pc_room x.1;
           sr_department := c_department x.2 |})
  <$> Sql.order_by (λ x y, null_first_leb (pc_schedule x.1) (pc_schedule y.1))
        (filter (λ x, pc_professor_id x.1 = professor_id)
           (join_courses (professor_courses c) (courses (tables c)))).

(** [generate_detailed_report]: a row of the data frame. *)
Record report_row := {
  rr_date : string;
  rr_time_in : string;
  rr_time_out : option string;
  rr_professor_id : string;
  rr_name : string;
  rr_department : string;
  rr_session_type : option string;
  rr_venue : option string;
  rr_status : option string;
  rr_remarks : option string;
  rr_session_start : option string;
  rr_session_end : option string
}.

(** [LEFT JOIN attendance_sessions asess ON ar.session_id = asess.id]. *)
Definition left_join_sessions (xs : list (attendance_record * professor))
    (ss : list attendance_session)
    : list (attendance_record * professor * option attendance_session) :=
  xs ≫= λ x,
    match filter (λ s, Sql.holds (Sql.eq (ar_session_id x.1) (Some (as_id s)))) ss with
    | [] => [(x, None)]
    | ms => (λ s, (x, Some s)) <$> ms
    end.

(** [ORDER BY ar.date, ar.time_in]. *)
Definition date_time_asc
    (x y : attendance_record * professor * option attendance_session) : bool :=
  match String.compare (ar_date x.1.1) (ar_date y.1.1) with
  | Lt => true
  | Gt => false
  | Eq => String.leb (ar_time_in x.1.1) (ar_time_in y.1.1)
  end.

Definition report_where (start_date end_date : string)
    (department : option string)
    (y : attendance_record * professor * option attendance_session) : Sql.tv :=
  and_when (Py.truthy department)
    (Sql.eq (Some (p_department y.1.2)) department)
    (Some (Sql.between start_date end_date (ar_date y.1.1))).

Definition generate_detailed_report (start_date end_date : string)
    (department : option string) (db : database) : list report_row :=
  (λ y, {| rr_date := ar_date y.1.1; rr_time_in := ar_time_in y.1.1;
           rr_time_out := ar_time_out y.1.1; rr_professor_id := p_id y.1.2;
           rr_name := p_name y.1.2; rr_department := p_department y.1.2;
           rr_session_type := ar_session_type y.1.1;
           rr_venue := ar_venue y.1.1; rr_status := ar_status y.1.1;
           rr_remarks := ar_remarks y.1.1;
           rr_session_start := as_start_time <$> y.2;
           rr_session_end := y.2 ≫= as_end_time |})
  <$> Sql.order_by date_time_asc
        (filter (λ y, Sql.holds (report_where start_date end_date department y))
           (left_join_sessions
              (join_professors (attendance_records db) (professors db))
              (attendance_sessions db))).

(** ** Generic facts about the query combinators *)

Lemma filter_nil_iff {A} (P : A → Prop) `{!∀ x, Decision (P x)} (l : list A) :
  filter P l = [] ↔ ∀ x, x ∈ l → ¬ P x.
Proof.
  split.
  - intros Hnil x Hx HP. by eapply filter_nil_not_elem_of.
  - induction l as [|y l IH]; intros Hall; [done|].
    rewrite filter_cons_False; [|apply Hall; left].
    apply IH. intros x Hx. apply Hall. by right.
Qed.

Lemma head_fmap_filter_None {A B} (f : A → B) (P : A → Prop)
    `{!∀ x, Decision (P x)} (l : list A) :
  head (f <$> filter P l) = None ↔ ∀ x, x ∈ l → ¬ P x.
Proof.
  rewrite head_None. rewrite <- filter_nil_iff.
  split; [apply fmap_nil_inv | by intros ->].
Qed.

Lemma NoDup_fmap_inj_on {A B} (f : A → B) (l : list A) (x y : A) :
  NoDup (f <$> l) → x ∈ l → y ∈ l → f x = f y → x = y.
Proof.
  induction l as [|z l IH]; [by intros _ ?%elem_of_nil|].
  rewrite fmap_cons, NoDup_cons, !elem_of_cons.
  intros [Hz Hl] [->|Hx] [->|Hy] Hf; auto.
  - destruct Hz. rewrite Hf. apply list_elem_of_fmap. eauto.
  - destruct Hz. rewrite <- Hf. apply list_elem_of_fmap. eauto.
Qed.

Lemma holds_and (a b : Sql.tv) :
  Sql.holds (Sql.tv_and a b) ↔ Sql.holds a ∧ Sql.holds b.
Proof. destruct a as [[]|], b as [[]|]; simpl; tauto. Qed.

Lemma holds_or (a b : Sql.tv) :
  Sql.holds (Sql.tv_or a b) ↔ Sql.holds a ∨ Sql.holds b.
Proof. destruct a as [[]|], b as [[]|]; simpl; tauto. Qed.

Lemma holds_eq {A} `{EqDecision A} (x y : option A) :
  Sql.holds (Sql.eq x y) ↔ ∃ a, x = Some a ∧ y = Some a.
Proof.
  destruct x as [a|], y as [b|]; simpl.
  - destruct (decide (a = b)) as [->|Hne].
    + rewrite bool_decide_eq_true_2 by done. simpl. split; [eauto|done].
    + rewrite bool_decide_eq_false_2 by done. simpl.
      split; [done|]. intros (c & [= ->] & [= ->]). done.
  - split; [done|]. by intros (c & _ & [=]).
  - split; [done|]. by intros (c & [=] & _).
  - split; [done|]. by intros (c & [=] & _).
Qed.

Lemma holds_eq_some {A} `{EqDecision A} (x : option A) (a : A) :
  Sql.holds (Sql.eq x (Some a)) ↔ x = Some a.
Proof.
  rewrite holds_eq. split.
  - by intros (b & -> & [= ->]).
  - intros ->. eauto.
Qed.

(** ** The schema constraints are kept by every write *)

Lemma empty_db_wf : db_wf empty_db.
Proof. split; apply NoDup_nil_2. Qed.

Lemma log_action_wf action details user_id db :
  db_wf db → db_wf (log_action action details user_id db).
Proof. intros [? ? ? ?]. by split. Qed.

Lemma NoDup_snoc {A} (l : list A) (x : A) :
  NoDup l → x ∉ l → NoDup (l ++ [x]).
Proof.
  intros Hl Hx. apply NoDup_app. split; [done|]. split.
  - intros y Hy ->%list_elem_of_singleton. done.
  - apply NoDup_singleton.
Qed.

Lemma add_professor_wf d now db :
  db_wf db → db_wf (add_professor d now db).2.
Proof.
  intros Hwf. unfold add_professor.
  destruct (head _); [done|]. unfold insert_professor.
  case_bool_decide as Hid; [done|]. case_bool_decide as Hemail; [done|].
  apply log_action_wf. destruct Hwf as [Hids Hemails Hcodes Hnames].
  split; simpl; try done.
  - rewrite fmap_app. by apply NoDup_snoc.
  - rewrite omap_app. apply NoDup_snoc; [done|].
    intros (p & Hp & Hem)%list_elem_of_omap. apply Hemail.
    apply list_elem_of_fmap. eauto.
Qed.

Lemma record_attendance_wf d db :
  db_wf db → db_wf (record_attendance d db).2.
Proof.
  intros Hwf. unfold record_attendance.
  destruct (negb _); [done|]. destruct (head _); [done|].
  apply log_action_wf. destruct Hwf. by split.
Qed.

Lemma add_course_wf d db : db_wf db → db_wf (add_course d db).2.
Proof.
  intros Hwf. unfold add_course, insert_course.
  destruct (negb _); [done|]. case_bool_decide as Hcode; [done|].
  destruct Hwf. split; simpl; try done.
  rewrite fmap_app. by apply NoDup_snoc.
Qed.

Lemma create_admin_wf digest username password full_name role db :
  db_wf db → db_wf (create_admin digest username password full_name role db).2.
Proof.
  intros Hwf. unfold create_admin, insert_admin.
  case_bool_decide as Hname; [done|].
  destruct Hwf. split; simpl; try done.
  rewrite fmap_app. by apply NoDup_snoc.
Qed.

(** ** Attendance: the existence check *)

Lemma holds_same_attendance pid sid date r :
  Sql.holds (same_attendance pid sid date r) ↔
  ar_professor_id r = pid ∧ (∃ s, ar_session_id r = Some s ∧ sid = Some s) ∧
  ar_date r = date.
Proof.
  unfold same_attendance.
  rewrite !holds_and, !holds_eq_some, holds_eq.
  split.
  - intros [[[= Hp] Hs] [= Hd]]. done.
  - intros (-> & Hs & ->). done.
Qed.

(** With a session named, a matching row makes [record_attendance] fail
    and leaves the store as it was. *)
Lemma record_attendance_duplicate_session d s r db :
  ad_session_id d = Some s →
  Sql.int64 s = true →
  r ∈ attendance_records db →
  ar_professor_id r = ad_professor_id d →
  ar_session_id r = Some s →
  ar_date r = ad_date d →
  record_attendance d db =
    ((false, "Attendance already recorded for this session"), db).
Proof.
  intros Hs Hint Hr Hp Hsid Hd. unfold record_attendance, select_attendance.
  rewrite Hs. cbn [Sql.bindable]. rewrite Hint. cbn [negb].
  destruct (head _) eqn:Hhead; [done|].
  apply head_fmap_filter_None with (x := r) in Hhead; [|done].
  exfalso. apply Hhead. apply holds_same_attendance. naive_solver.
Qed.

(** With no session named, the check selects nothing: the comparison
    [session_id = NULL] is never true. *)
Lemma select_attendance_null pid date db :
  select_attendance pid None date db = [].
Proof.
  unfold select_attendance.
  rewrite (proj2 (filter_nil_iff _ (attendance_records db))); [done|].
  intros r _ Hr. apply holds_same_attendance in Hr.
  by destruct Hr as (_ & (s & _ & [=]) & _).
Qed.

Lemma record_attendance_no_session_inserts d db :
  ad_session_id d = None →
  ∃ row db',
    record_attendance d db = ((true, "Attendance recorded successfully"), db') ∧
    attendance_records db' = (attendance_records db ++ [row])%list ∧
    ar_professor_id row = ad_professor_id d ∧ ar_session_id row = None ∧
    ar_date row = ad_date d.
Proof.
  intros Hs. unfold record_attendance. rewrite Hs, select_attendance_null.
  simpl. eexists _, _. split; [reflexivity|]. by simpl.
Qed.

(** C1: [record_attendance] is meant to refuse a second record for the same
    (professor_id, session_id, date), the absent session included. Evaluated
    on the empty store with a check-in that names no session, both calls
    succeed and two matching rows exist afterwards; the same check-in with
    a session is refused the second time and leaves one row. *)
Theorem record_attendance_twice_without_session :
  let same (d : attendance_data) (r : attendance_record) :=
    ar_professor_id r = ad_professor_id d ∧ ar_session_id r = ad_session_id d ∧
    ar_date r = ad_date d in
  let first := record_attendance walk_in empty_db in
  let second := record_attendance walk_in first.2 in
  let first' := record_attendance session_check_in empty_db in
  let second' := record_attendance session_check_in first'.2 in
  first.1 = (true, "Attendance recorded successfully") ∧
  second.1 = (true, "Attendance recorded successfully") ∧
  length (filter (same walk_in) (attendance_records second.2)) = 2%nat ∧
  second'.1 = (false, "Attendance already recorded for this session") ∧
  length (filter (same session_check_in) (attendance_records second'.2)) = 1%nat.
Proof. vm_compute. repeat split. Qed.

(** ** Professors: the existence check and the insert *)

Lemma select_professor_None id email db :
  head (select_professor_by_id_or_email id email db) = None ↔
  ∀ p, p ∈ professors db → p_id p ≠ id ∧ p_email p ≠ Some email.
Proof.
  unfold select_professor_by_id_or_email. rewrite head_fmap_filter_None.
  apply forall_proper; intros p. apply forall_proper; intros _.
  rewrite holds_or, !holds_eq_some. split.
  - intros Hno. split; intros Heq; apply Hno; [left | right]; congruence.
  - intros [Hid Hem] [[= Heq] | Heq]; done.
Qed.

Lemma insert_professor_fresh id name department contact email registered db :
  (∀ p, p ∈ professors db → p_id p ≠ id ∧ p_email p ≠ Some email) →
  ∃ db', insert_professor id name department contact email registered db = Done db' ∧
    professors db' = (professors db ++
      [{| p_id := id; p_name := name; p_department := department;
          p_contact := Some contact; p_email := Some email;
          p_date_registered := registered; p_is_active := Some 1;
          p_password_hash := None; p_role := Some "professor" |}])%list ∧
    attendance_records db' = attendance_records db ∧
    system_logs db' = system_logs db.
Proof.
  intros Hfresh. unfold insert_professor.
  rewrite bool_decide_eq_false_2.
  2:{ intros (p & Hid & Hp)%list_elem_of_fmap.
      destruct (Hfresh p Hp). congruence. }
  rewrite bool_decide_eq_false_2.
  2:{ intros (p & Hem & Hp)%list_elem_of_fmap.
      destruct (Hfresh p Hp). congruence. }
  eexists. split; [reflexivity|]. done.
Qed.



(** C9: when a professor whose stored email is the empty string is already
    registered, [add_professor] with data that leaves the email out returns
    the duplicate failure and changes nothing, whatever the id. *)
Theorem add_professor_omitted_email_collides d now db p :
  p ∈ professors db →
  p_email p = Some "" →
  pd_email d = None →
  add_professor d now db =
    ((false, "Professor ID or email already exists"), db).
Proof.
  intros Hp Hem Hnone. unfold add_professor.
  destruct (head _) eqn:Hhead; [done|].
  pose proof (proj1 (select_professor_None _ _ _) Hhead p Hp) as [_ Hne].
  unfold pd_email_or_empty in Hne. rewrite Hnone in Hne. done.
Qed.

Lemma add_professor_omitted_email_collides_witness :
  add_professor no_email_newcomer clock_2024_03_05 registered_without_email =
    ((false, "Professor ID or email already exists"), registered_without_email).
Proof.
  apply (add_professor_omitted_email_collides no_email_newcomer
           clock_2024_03_05 registered_without_email
           (mk_professor "P1" "Ada" "Math" (Some "") 1)).
  - by left.
  - reflexivity.
  - reflexivity.
Defined.

(** ** Courses *)

(** C8: a course whose code is already stored makes [add_course] fail and
    insert nothing; otherwise, units fitting a 64-bit integer when given,
    one row is inserted, and each of units, semester and academic_year that
    the input leaves out is stored as 3, "1st" and "2024-2025". Units that
    do not fit 64 bits make the call fail and insert nothing. *)
Theorem add_course_defaults_and_duplicates d db :
  ((∃ c, c ∈ courses db ∧ c_course_code c = cd_course_code d) →
   ∃ msg, add_course d db = ((false, msg), db))
  ∧
  ((∀ c, c ∈ courses db → c_course_code c ≠ cd_course_code d) →
   (∀ u, cd_units d = Some u → Sql.int64 u = true) →
   ∃ row db', add_course d db = ((true, "Course added successfully"), db') ∧
     courses db' = (courses db ++ [row])%list ∧
     c_course_code row = cd_course_code d ∧
     c_course_name row = cd_course_name d ∧
     (cd_units d = None → c_units row = Some 3) ∧
     (cd_semester d = None → c_semester row = Some "1st") ∧
     (cd_academic_year d = None → c_academic_year row = Some "2024-2025"))
  ∧
  ((∃ u, cd_units d = Some u ∧ Sql.int64 u = false) →
   ∃ msg, add_course d db = ((false, msg), db)).
Proof.
  split; [|split].
  - intros (c & Hc & Hcode). unfold add_course, insert_course.
    destruct (negb _); [eexists; reflexivity|].
    rewrite bool_decide_eq_true_2.
    + eexists. reflexivity.
    + apply list_elem_of_fmap. eauto.
  - intros Hfresh Hunits. unfold add_course, insert_course.
    assert (Sql.int64 (default 3 (cd_units d)) = true) as ->.
    { destruct (cd_units d) as [u|]; [by apply Hunits | done]. }
    cbn [negb]. rewrite bool_decide_eq_false_2.
    2:{ intros (c & Hcode & Hc)%list_elem_of_fmap.
        by apply (Hfresh c Hc). }
    eexists _, _. split; [reflexivity|]. simpl.
    repeat split; by intros ->.
  - intros (u & Hu & Hover). unfold add_course, insert_course.
    rewrite Hu. cbn [default from_option id]. rewrite Hover. cbn [negb].
    eexists. reflexivity.
Qed.

Lemma add_course_defaults_and_duplicates_witness :
  ∃ row db', add_course algebra empty_db =
      ((true, "Course added successfully"), db') ∧
    courses db' = [row] ∧
    c_units row = Some 3 ∧ c_semester row = Some "1st" ∧
    c_academic_year row = Some "2024-2025" ∧
    ∃ msg, add_course algebra db' = ((false, msg), db').
Proof.
  destruct (proj1 (proj2 (add_course_defaults_and_duplicates algebra empty_db)))
    as (row & db' & Heq & Hcs & Hcode & _ & Hu & Hs & Hy).
  { intros c Hc. by apply elem_of_nil in Hc. }
  { intros u Hu. discriminate Hu. }
  exists row, db'. repeat split; auto.
  apply (proj1 (add_course_defaults_and_duplicates algebra db')).
  exists row. split; [|exact Hcode]. rewrite Hcs. by left.
Defined.

(** ** Admins *)

Lemma select_admin_elem username password_hash db a :
  a ∈ select_admin username password_hash db ↔
  a ∈ admins db ∧ a_username a = username ∧ a_password_hash a = password_hash.
Proof.
  unfold select_admin. rewrite list_elem_of_filter, holds_and, !holds_eq_some.
  split.
  - intros [[[= Hu] [= Hh]] Ha]. done.
  - intros (Ha & -> & ->). done.
Qed.

(** C6: [authenticate_admin] returns [(True, row)] for a stored admin row
    whose username is the argument and whose password_hash is the digest of
    the supplied password whenever such a row exists (the only such row,
    usernames being unique), and appends one ADMIN_LOGIN entry to the log;
    when no such row exists it returns [(False, None)] and leaves the store,
    the log included, as it was. *)
Theorem authenticate_admin_exactly_on_match
    (sha256_hexdigest : string → string) username password db :
  let good a :=
    a ∈ admins db ∧ a_username a = username ∧
    a_password_hash a = sha256_hexdigest password in
  ((∃ a, good a) →
   ∃ a db', authenticate_admin sha256_hexdigest username password db =
       ((true, Some a), db') ∧ good a ∧
     (NoDup (a_username <$> admins db) → ∀ a', good a' → a' = a) ∧
     ∃ id, system_logs db' = (system_logs db ++
       [{| l_id := id; l_user_id := None; l_action := "ADMIN_LOGIN";
           l_details := Some ("Admin " ++ username ++ " logged in")%string |}])%list)
  ∧
  ((∀ a, ¬ good a) →
   authenticate_admin sha256_hexdigest username password db = ((false, None), db)).
Proof.
  intros good. subst good. simpl. unfold authenticate_admin. split.
  - intros (a0 & Ha0).
    destruct (head _) as [a|] eqn:Hhead.
    + apply head_Some_elem_of in Hhead.
      pose proof (proj1 (select_admin_elem _ _ _ _) Hhead) as Ha.
      exists a, (log_action "ADMIN_LOGIN" ("Admin " ++ username ++ " logged in")
                   None db).
      split; [done|]. split; [done|]. split.
      * intros Hnodup a' (Ha' & Hu' & _). destruct Ha as (Ha & Hu & _).
        apply (NoDup_fmap_inj_on a_username (admins db)); try done.
        congruence.
      * eexists. reflexivity.
    + apply head_None in Hhead.
      apply (proj2 (select_admin_elem _ _ _ _)) in Ha0.
      rewrite Hhead in Ha0. by apply elem_of_nil in Ha0.
  - intros Hnone.
    destruct (head _) as [a|] eqn:Hhead; [|done].
    apply head_Some_elem_of in Hhead.
    apply (proj1 (select_admin_elem _ _ _ _)) in Hhead.
    by destruct (Hnone a).
Qed.

Lemma authenticate_admin_exactly_on_match_witness :
  (∃ a db', authenticate_admin toy_digest "root" "s3cret" one_admin =
       ((true, Some a), db') ∧ a_full_name a = "Operator" ∧
       l_action <$> system_logs db' = ["ADMIN_LOGIN"])
  ∧ authenticate_admin toy_digest "root" "guess" one_admin =
      ((false, None), one_admin).
Proof.
  split.
  - destruct (proj1 (authenticate_admin_exactly_on_match toy_digest
                       "root" "s3cret" one_admin))
      as (a & db' & Heq & (Ha & _) & _ & (id & Hlog)).
    + eexists. split; [by left|]. split; reflexivity.
    + exists a, db'. split; [exact Heq|].
      apply list_elem_of_singleton in Ha as ->.
      split; [reflexivity|]. rewrite Hlog. reflexivity.
  - apply (proj2 (authenticate_admin_exactly_on_match toy_digest
                    "root" "guess" one_admin)).
    intros a (Ha & _ & Hh). apply list_elem_of_singleton in Ha as ->.
    vm_compute in Hh. discriminate.
Defined.

(** ** Statistics *)

Lemma omap_Some_fmap {A B} (f : A → B) (l : list A) :
  omap (λ x, Some (f x)) l = f <$> l.
Proof. induction l as [|x l IH]; [done|]. csimpl. by rewrite IH. Qed.

Lemma length_remove_dups_le {A} `{EqDecision A} (l : list A) :
  (length (remove_dups l) ≤ length l)%nat.
Proof.
  induction l as [|x l IH]; simpl; [done|].
  destruct (decide_rel _ x l); simpl; lia.
Qed.

(** The division the guard protects raises for a zero divisor. *)
Lemma truediv_by_zero a :
  Py.truediv a 0 = Py.Raise Py.ZeroDivisionError.
Proof. reflexivity. Qed.

(** With a positive divisor and a 64-bit dividend the rate is returned. *)
Lemma rate_returns attended total :
  0 ≤ attended < 2 ^ 63 → ∃ r, rate attended total = Py.Return r.
Proof.
  intros Ha. unfold rate. destruct (0 <? total) eqn:Ht; [|eauto].
  apply Z.ltb_lt in Ht. unfold Py.truediv.
  rewrite (proj2 (Z.eqb_neq total 0)) by lia.
  destruct (attended =? 0); [eauto|].
  rewrite (proj2 (Z.leb_gt _ _)).
  - destruct (SFdiv_core_binary _ _ _ _ _ _) as [[m e] l]. eauto.
  - rewrite !Z.abs_eq by lia.
    set (K := 2 ^ 1025 - 2 ^ 971).
    assert (2 * 2 ^ 63 < K) as HK by (subst K; by vm_compute).
    clearbody K. nia.
Qed.

(** What a returned dictionary holds. *)
Lemma daily_stats_returned date now db s :
  get_daily_attendance_stats date now db = Py.Return s →
  let day := if Py.truthy date then default "" date else Py.strftime_date now in
  ds_date s = day ∧
  ds_total_professors s = Sql.count (active_professors db) ∧
  ds_attended_today s = attended_on day db ∧
  rate (attended_on day db) (Sql.count (active_professors db)) =
    Py.Return (ds_attendance_rate s) ∧
  ds_by_department s =
    Py.dict_of_rows
      (Sql.group_by (λ x, p_department x.1)
         (Sql.count_distinct (λ x, ar_professor_id <$> x.2))
         (filter (λ x, Sql.holds (Sql.eq (p_is_active x.1) (Some 1)))
            (left_join_attendance day (professors db) (attendance_records db)))) ∧
  ds_absent_today s = Sql.count (active_professors db) - attended_on day db.
Proof.
  unfold get_daily_attendance_stats. destruct (rate _ _) as [r|e]; [|done].
  intros [= <-]. by cbn.
Qed.

Lemma dashboard_stats_returned now db s :
  get_dashboard_stats now db = Py.Return s →
  dash_total_professors s = Sql.count (active_professors db) ∧
  dash_today_attendance s = attended_on (Py.strftime_date now) db ∧
  dash_month_attendance s =
    Sql.count (in_range (Py.strftime_date (Py.replace_day1 now))
                 (Py.strftime_date now) (attendance_records db)) ∧
  rate (attended_on (Py.strftime_date now) db)
       (Sql.count (active_professors db)) =
    Py.Return (dash_attendance_rate s) ∧
  dash_recent_attendance s = Py.dict_of_rows (recent_rows now db).
Proof.
  unfold get_dashboard_stats. destruct (rate _ _) as [r|e]; [|done].
  intros [= <-]. by cbn.
Qed.

Lemma attended_on_bound date db :
  0 ≤ attended_on date db ≤ Z.of_nat (length (attendance_records db)).
Proof.
  unfold attended_on, Sql.count_distinct. split; [lia|]. apply inj_le.
  etransitivity; [apply length_remove_dups_le|].
  rewrite (omap_Some_fmap ar_professor_id), length_fmap. apply length_filter.
Qed.

Lemma daily_stats_returns date now db :
  Z.of_nat (length (attendance_records db)) < 2 ^ 63 →
  ∃ s, get_daily_attendance_stats date now db = Py.Return s.
Proof.
  intros Hsize. unfold get_daily_attendance_stats.
  set (day := if Py.truthy date then default "" date else Py.strftime_date now).
  destruct (rate_returns (attended_on day db) (Sql.count (active_professors db)))
    as [r ->]; [|eauto].
  pose proof (attended_on_bound day db). lia.
Qed.

Lemma dashboard_stats_returns now db :
  Z.of_nat (length (attendance_records db)) < 2 ^ 63 →
  ∃ s, get_dashboard_stats now db = Py.Return s.
Proof.
  intros Hsize. unfold get_dashboard_stats.
  destruct (rate_returns (attended_on (Py.strftime_date now) db)
              (Sql.count (active_professors db))) as [r ->]; [|eauto].
  pose proof (attended_on_bound (Py.strftime_date now) db). lia.
Qed.

(** X27: the attendance rate of both statistics methods. For an attended
    count as SQLite returns it (from 0 to below 2^63) it never raises: it
    is the integer 0 when total is not positive, and otherwise a float, the
    quotient rounded to the nearest float and then that times 100 rounded
    again. So 1 of 3 gives 33.33333333333333, the float just below the
    one nearest to 100/3. *)
Theorem attendance_rate_rounded_twice attended total :
  0 ≤ attended < 2 ^ 63 →
  (total ≤ 0 → rate attended total = Py.Return (Py.Int 0)) ∧
  (0 < total →
   ∃ q, Py.truediv attended total = Py.Return q ∧
        rate attended total = Py.Return (Py.Float (Py.float_mul_int q 100))) ∧
  rate 1 3 = Py.Return (Py.Float (S754_finite false 4691249611844266 (-47))) ∧
  Py.truediv 100 3 = Py.Return (S754_finite false 4691249611844267 (-47)).
Proof.
  intros Ha. split; [|split; [|split; by vm_compute]].
  - intros Ht. unfold rate. by rewrite (proj2 (Z.ltb_ge 0 total)).
  - intros Ht. destruct (rate_returns attended total Ha) as [r Hr].
    unfold rate in *. rewrite (proj2 (Z.ltb_lt 0 total)) in * by done.
    destruct (Py.truediv attended total) as [q|e]; [|done]. eauto.
Qed.

Lemma attendance_rate_rounded_twice_witness :
  ∃ q, Py.truediv 2 3 = Py.Return q ∧
       rate 2 3 = Py.Return (Py.Float (Py.float_mul_int q 100)).
Proof.
  destruct (attendance_rate_rounded_twice 2 3) as (_ & Hfloat & _);
    [by vm_compute|].
  by apply Hfloat.
Defined.

(** C4: when no professor is active, [get_daily_attendance_stats] (for any
    date argument) and [get_dashboard_stats] both return a dictionary, not
    an exception, and its attendance_rate is the integer 0: the guard
    answers, and the division, which raises ZeroDivisionError for this
    total, is not evaluated. *)
Theorem attendance_rate_zero_without_professors date now db :
  Sql.count (active_professors db) = 0 →
  (∃ s, get_daily_attendance_stats date now db = Py.Return s ∧
        ds_attendance_rate s = Py.Int 0 ∧ ds_total_professors s = 0) ∧
  (∃ s, get_dashboard_stats now db = Py.Return s ∧
        dash_attendance_rate s = Py.Int 0 ∧ dash_total_professors s = 0).
Proof.
  intros Hzero. split.
  - unfold get_daily_attendance_stats, rate. rewrite Hzero. cbn [Z.ltb Z.compare].
    eexists. split; [reflexivity|]. by cbn.
  - unfold get_dashboard_stats, rate. rewrite Hzero. cbn [Z.ltb Z.compare].
    eexists. split; [reflexivity|]. by cbn.
Qed.

Lemma attendance_rate_zero_without_professors_witness :
  (∃ s, get_daily_attendance_stats None clock_2024_03_05 nobody_active =
          Py.Return s ∧
        ds_attendance_rate s = Py.Int 0 ∧ ds_attended_today s = 1) ∧
  (∃ s, get_dashboard_stats clock_2024_03_05 nobody_active = Py.Return s ∧
        dash_attendance_rate s = Py.Int 0).
Proof.
  destruct (attendance_rate_zero_without_professors None clock_2024_03_05
              nobody_active) as [(s & Hs & Hrate & _) (s' & Hs' & Hrate' & _)].
  - by vm_compute.
  - split.
    + exists s. split; [exact Hs|]. split; [exact Hrate|].
      apply daily_stats_returned in Hs as (_ & _ & -> & _). by vm_compute.
    + exists s'. by split.
Defined.

Lemma length_remove_dups_size (l : list string) :
  length (remove_dups l) = size (list_to_set l : gset string).
Proof.
  rewrite <- (size_list_to_set (C := gset string) (remove_dups l))
    by apply NoDup_remove_dups.
  f_equal. apply set_eq. intros x.
  by rewrite !elem_of_list_to_set, elem_of_remove_dups.
Qed.

Lemma attended_on_seen date db :
  attended_on date db = Z.of_nat (size (seen_on date db)).
Proof.
  unfold attended_on, Sql.count_distinct, seen_on.
  by rewrite (omap_Some_fmap ar_professor_id), length_remove_dups_size.
Qed.

(** C10: for a date d, attended_today of [get_daily_attendance_stats(d)]
    is the number of distinct professor_id values among the attendance
    records dated d (the table holding fewer than 2^63 rows, as a table
    keyed by a 64-bit row id does), and is the same for any two stores with
    the same attendance records, whatever their professors; total_professors
    is the number of professors with is_active = 1; absent_today is their
    difference. With records on d by ids that are not active professors,
    absent_today is negative and attendance_rate is above 100: two such
    ids and one active professor give -1 and 200.0. *)
Theorem daily_stats_counts_any_professor_id :
  (∀ d now db,
     d ≠ "" →
     Z.of_nat (length (attendance_records db)) < 2 ^ 63 →
     ∃ s, get_daily_attendance_stats (Some d) now db = Py.Return s ∧
       ds_date s = d ∧
       ds_attended_today s = Z.of_nat (size (seen_on d db)) ∧
       ds_total_professors s =
         Z.of_nat (length (filter (λ p, p_is_active p = Some 1) (professors db))) ∧
       ds_absent_today s = ds_total_professors s - ds_attended_today s ∧
       ∀ db', attendance_records db' = attendance_records db →
         ∃ s', get_daily_attendance_stats (Some d) now db' = Py.Return s' ∧
               ds_attended_today s' = ds_attended_today s)
  ∧
  (∃ s, get_daily_attendance_stats (Some "2024-03-05") clock_2024_03_09
          strangers = Py.Return s ∧
     ds_date s = "2024-03-05" ∧
     ds_total_professors s = 1 ∧ ds_attended_today s = 2 ∧
     ds_absent_today s = -1 ∧
     ds_attendance_rate s = Py.Float (Py.float_of_int 200) ∧
     Py.float_lt (Py.float_of_int 100) (Py.float_of_int 200) = true).
Proof.
  split.
  - intros d now db Hd Hsize.
    assert (Py.truthy (Some d) = true) as Htruthy
      by (simpl; by rewrite bool_decide_eq_false_2).
    destruct (daily_stats_returns (Some d) now db Hsize) as [s Hs].
    exists s. split; [exact Hs|].
    apply daily_stats_returned in Hs as (Hdate & Htotal & Hatt & _ & _ & Habs).
    rewrite Htruthy in *. cbn [default from_option id] in *.
    split; [done|]. split; [by rewrite Hatt, attended_on_seen|].
    split.
    { rewrite Htotal. unfold Sql.count, active_professors. do 2 f_equal.
      apply list_filter_iff. intros p. apply holds_eq_some. }
    split; [by rewrite Habs, Htotal, Hatt|].
    intros db' Hsame.
    destruct (daily_stats_returns (Some d) now db') as [s' Hs'];
      [by rewrite Hsame|].
    exists s'. split; [exact Hs'|].
    apply daily_stats_returned in Hs' as (_ & _ & Hatt' & _).
    rewrite Htruthy in Hatt'. cbn [default from_option id] in Hatt'.
    rewrite Hatt, Hatt'. unfold attended_on. by rewrite Hsame.
  - eexists. split; [by vm_compute|].
    cbn [ds_date ds_total_professors ds_attended_today ds_absent_today
         ds_attendance_rate].
    split; [done|]. split; [done|]. split; [done|]. split; [done|].
    split; by vm_compute.
Qed.

Lemma daily_stats_counts_any_professor_id_witness :
  ∃ s, get_daily_attendance_stats (Some "2024-03-05") clock_2024_03_09
         strangers = Py.Return s ∧
       ds_date s = "2024-03-05" ∧ ds_attended_today s = 2.
Proof.
  destruct (proj1 daily_stats_counts_any_professor_id "2024-03-05"
              clock_2024_03_09 strangers)
    as (s & Hs & Hdate & Hatt & _).
  - discriminate.
  - by vm_compute.
  - exists s. split; [exact Hs|]. split; [exact Hdate|].
    rewrite Hatt. by vm_compute.
Defined.

(** ** Export *)

Lemma truthy_Some (o : option string) :
  Py.truthy o → ∃ s, o = Some s ∧ s ≠ "".
Proof.
  destruct o as [s|]; simpl; [|done].
  case_bool_decide; simpl; [done|]. eauto.
Qed.

(** C7, as stated, fails: with a record to export and the output path
    report.csv, pandas' writer refuses the extension; [export_to_excel] has
    no [try], so the ValueError leaves the call: no path is returned, no
    file is written and nothing is logged. *)
Lemma export_to_excel_refused_extension :
  let r := export_to_excel openpyxl_writer None (Some "report.csv")
             clock_2024_03_05 strangers_and_ada in
  get_attendance_records None (store strangers_and_ada) ≠ [] ∧
  r.1 = Py.Raise Py.ValueError ∧
  r.1 ≠ Py.Return "report.csv" ∧
  files r.2 !! "report.csv" = None ∧
  r.2 = strangers_and_ada.
Proof. vm_compute. repeat split; discriminate. Qed.

(** C7, amended: when [get_attendance_records(filters)] is empty,
    [export_to_excel] returns the empty string and the world is unchanged:
    no file is written and no log entry is appended. When it is not empty,
    the chosen path (the given one, or the timestamped default) is not the
    empty string, and: if the spreadsheet writer saves the workbook, the
    function returns the chosen path, a workbook holding the records is
    stored under that path, other files are untouched, and one EXPORT_EXCEL
    entry is appended to the log; if the writer raises, the exception
    leaves the call and the store, the log included, is unchanged. *)
Theorem export_to_excel_only_with_records
    (excel_writer : string → workbook → gmap string workbook → excel_outcome)
    f output_path now w :
  let records := get_attendance_records f (store w) in
  let chosen :=
    if Py.truthy output_path then default "" output_path
    else "attendance_report_" ++ Py.strftime_stamp now ++ ".xlsx" in
  let book := {| wb_sheet_name := "Attendance Records"; wb_rows := records |} in
  (records = [] →
   export_to_excel excel_writer f output_path now w = (Py.Return "", w))
  ∧
  (records ≠ [] →
   chosen ≠ "" ∧
   (excel_writer chosen book (files w) = Saved →
    ∃ w', export_to_excel excel_writer f output_path now w =
            (Py.Return chosen, w') ∧
      files w' !! chosen = Some book ∧
      (∀ other, other ≠ chosen → files w' !! other = files w !! other) ∧
      ∃ id, system_logs (store w') = (system_logs (store w) ++
        [{| l_id := id; l_user_id := None; l_action := "EXPORT_EXCEL";
            l_details := Some ("Exported to " ++ chosen)%string |}])%list) ∧
   (∀ e remaining, excel_writer chosen book (files w) = Refused e remaining →
    export_to_excel excel_writer f output_path now w =
      (Py.Raise e, {| store := store w; files := remaining |}))).
Proof.
  intros records chosen book. subst records book. unfold export_to_excel.
  fold chosen.
  destruct (get_attendance_records f (store w)) as [|x rows] eqn:Hrecords.
  - split; [done|]. by intros [].
  - split; [done|]. intros _. split; [|split].
    + subst chosen. destruct (Py.truthy output_path) eqn:Ht; [|done].
      destruct (truthy_Some output_path) as (s & -> & Hs); [by rewrite Ht|done].
    + intros ->. eexists. split; [reflexivity|]. simpl. split; [|split].
      * apply lookup_insert_eq.
      * intros other Hother. by apply lookup_insert_ne.
      * eexists. reflexivity.
    + by intros e remaining ->.
Qed.

Lemma export_to_excel_only_with_records_witness :
  export_to_excel openpyxl_writer None None clock_2024_03_05 empty_world
    = (Py.Return "", empty_world)
  ∧ ∃ w', export_to_excel openpyxl_writer None None clock_2024_03_05
            strangers_and_ada =
      (Py.Return "attendance_report_20240305_090730.xlsx", w') ∧
    (λ b, row_name <$> wb_rows b) <$>
       (files w' !! "attendance_report_20240305_090730.xlsx") = Some ["Ada"].
Proof.
  split.
  - by apply (export_to_excel_only_with_records openpyxl_writer None None
                clock_2024_03_05 empty_world).
  - destruct (proj2 (export_to_excel_only_with_records openpyxl_writer None
                       None clock_2024_03_05 strangers_and_ada))
      as (_ & Hsaved & _).
    + by vm_compute.
    + destruct Hsaved as (w' & Heq & Hfile & _); [by vm_compute|].
      exists w'. split; [exact Heq|].
      exact (f_equal (fmap (λ b, row_name <$> wb_rows b)) Hfile).
Defined.

(** ** Grouping, ordering and dictionaries *)

Lemma group_by_keys {A K V} `{EqDecision K} (key : A → K) (agg : list A → V)
    (rows : list A) :
  (Sql.group_by key agg rows).*1 = remove_dups (key <$> rows).
Proof.
  unfold Sql.group_by. generalize (remove_dups (key <$> rows)).
  intros ks. induction ks as [|k ks IH]; [done|]. csimpl. by f_equal.
Qed.

Lemma group_by_elem {A K V} `{EqDecision K} (key : A → K) (agg : list A → V)
    (rows : list A) (k : K) (v : V) :
  (k, v) ∈ Sql.group_by key agg rows ↔
  k ∈ key <$> rows ∧ v = agg (filter (λ r, key r = k) rows).
Proof.
  unfold Sql.group_by. rewrite list_elem_of_fmap. split.
  - intros (k' & Heq & Hk). injection Heq as -> ->.
    split; [|done]. by apply elem_of_remove_dups.
  - intros [Hk ->]. exists k. split; [done|]. by apply elem_of_remove_dups.
Qed.

Lemma insert_sorted_perm {A} (le : A → A → bool) (x : A) (l : list A) :
  Sql.insert_sorted le x l ≡ₚ x :: l.
Proof.
  induction l as [|y l IH]; simpl; [done|].
  destruct (le x y); [done|]. rewrite IH. apply Permutation_swap.
Qed.

Lemma order_by_perm {A} (le : A → A → bool) (rows : list A) :
  Sql.order_by le rows ≡ₚ rows.
Proof.
  induction rows as [|x rows IH]; simpl; [done|].
  rewrite insert_sorted_perm. by rewrite IH.
Qed.

Lemma dict_of_rows_lookup {K V} `{Countable K} (rows : list (K * V)) k v :
  NoDup rows.*1 →
  Py.dict_of_rows rows !! k = Some v ↔ (k, v) ∈ rows.
Proof.
  intros Hnodup. unfold Py.dict_of_rows.
  rewrite <- elem_of_list_to_map.
  - by rewrite elem_of_reverse.
  - by rewrite fmap_reverse, reverse_Permutation.
Qed.

Lemma sum_perm (l1 l2 : list Z) :
  l1 ≡ₚ l2 → foldr Z.add 0 l1 = foldr Z.add 0 l2.
Proof. induction 1; simpl; lia. Qed.

Lemma sum_values_dict_of_rows {K} `{Countable K} (rows : list (K * Z)) :
  NoDup rows.*1 →
  Py.sum_values (Py.dict_of_rows rows) = foldr Z.add 0 rows.*2.
Proof.
  intros Hnodup. unfold Py.sum_values, Py.dict_of_rows.
  apply sum_perm. rewrite map_to_list_to_map.
  - by rewrite reverse_Permutation.
  - by rewrite fmap_reverse, reverse_Permutation.
Qed.

Lemma length_filter_or {A} (P Q : A → Prop) `{!∀ x, Decision (P x)}
    `{!∀ x, Decision (Q x)} (l : list A) :
  (∀ x, P x → Q x → False) →
  length (filter (λ x, P x ∨ Q x) l) =
  (length (filter P l) + length (filter Q l))%nat.
Proof.
  intros Hdisj. induction l as [|x l IH]; [done|].
  rewrite !filter_cons.
  destruct (decide (P x)) as [HP|HP], (decide (Q x)) as [HQ|HQ].
  - destruct (Hdisj x HP HQ).
  - rewrite decide_True by tauto. simpl. lia.
  - rewrite decide_True by tauto. simpl. lia.
  - rewrite decide_False by tauto. lia.
Qed.

(** The groups of a [GROUP BY] partition the rows: their counts add up to
    the number of rows whose key is among the group keys. *)
Lemma sum_counts_by_key {A K} `{EqDecision K} (key : A → K) (rows : list A)
    (ks : list K) :
  NoDup ks →
  foldr Z.add 0 ((λ k, Sql.count (filter (λ r, key r = k) rows)) <$> ks) =
  Sql.count (filter (λ r, key r ∈ ks) rows).
Proof.
  unfold Sql.count. induction 1 as [|k ks Hk Hks IH].
  - rewrite (proj2 (filter_nil_iff _ rows)); [done|].
    intros r _ Hr. by apply elem_of_nil in Hr.
  - rewrite fmap_cons. cbn [foldr]. rewrite IH.
    rewrite (list_filter_iff (λ r, key r ∈ k :: ks)
               (λ r, key r = k ∨ key r ∈ ks)).
    + rewrite length_filter_or; [lia|]. intros r -> Hin. done.
    + intros r. apply elem_of_cons.
Qed.

Lemma filter_all {A} (P : A → Prop) `{!∀ x, Decision (P x)} (l : list A) :
  (∀ x, x ∈ l → P x) → filter P l = l.
Proof.
  induction l as [|x l IH]; intros Hall; [done|].
  rewrite filter_cons_True by (apply Hall; left).
  f_equal. apply IH. intros y Hy. apply Hall. by right.
Qed.

Lemma sum_group_by_count {A K} `{EqDecision K} (key : A → K) (rows : list A) :
  foldr Z.add 0 (Sql.group_by key Sql.count rows).*2 = Sql.count rows.
Proof.
  unfold Sql.group_by. rewrite <- list_fmap_compose.
  change (snd ∘ _) with (λ k, Sql.count (filter (λ r, key r = k) rows)).
  rewrite sum_counts_by_key by apply NoDup_remove_dups.
  rewrite filter_all; [done|].
  intros r Hr. apply elem_of_remove_dups, list_elem_of_fmap. eauto.
Qed.

(** ** The summary of a date range *)

(** The primary key makes the join pick at most one professor per record. *)
Lemma length_filter_unique_id (ps : list professor) (i : string) :
  NoDup (p_id <$> ps) →
  length (filter (λ p, i = p_id p) ps) =
  if decide (i ∈ p_id <$> ps) then 1%nat else 0%nat.
Proof.
  induction ps as [|p ps IH]; [done|].
  rewrite fmap_cons, NoDup_cons. intros [Hp Hps].
  rewrite filter_cons. destruct (decide (i = p_id p)) as [->|Hne].
  - rewrite decide_True by (by left). simpl. rewrite IH by done.
    by rewrite decide_False.
  - rewrite IH by done.
    destruct (decide (i ∈ p_id <$> ps)) as [Hin|Hout].
    + rewrite decide_True; [done|]. by right.
    + rewrite decide_False; [done|]. rewrite elem_of_cons. tauto.
Qed.

Lemma length_join_in_range (a b : string) (rs : list attendance_record)
    (ps : list professor) :
  NoDup (p_id <$> ps) →
  length (filter (λ x, Sql.between a b (ar_date x.1)) (join_professors rs ps)) =
  length (filter (λ r, ar_professor_id r ∈ p_id <$> ps) (in_range a b rs)).
Proof.
  intros Hps. unfold join_professors, in_range.
  induction rs as [|r rs IH]; [done|].
  rewrite bind_cons, filter_app, length_app, IH. clear IH.
  rewrite (filter_cons _ r rs).
  destruct (decide (Sql.between a b (ar_date r))) as [Hin|Hout].
  - rewrite filter_all by (by intros [r' p] (p' & [= -> ->] & _)%list_elem_of_fmap).
    rewrite length_fmap, length_filter_unique_id by done.
    rewrite filter_cons. by destruct (decide (ar_professor_id r ∈ p_id <$> ps)).
  - rewrite (proj2 (filter_nil_iff _ _)); [done|].
    by intros [r' p] (p' & [= -> ->] & _)%list_elem_of_fmap.
Qed.

(** C2, as stated, fails: [record_attendance] accepts a professor_id that is
    not registered; such a record counts in total_attendance and in no
    department. *)
Lemma summary_departments_miss_unregistered :
  let s := get_attendance_summary "2024-01-01" "2024-01-02"
             two_departments_and_a_stranger in
  total_attendance s = 4 ∧ Py.sum_values (by_department s) = 3 ∧
  Py.sum_values (by_department s) ≠ total_attendance s.
Proof. vm_compute. repeat split. discriminate. Qed.

(** C2, amended: professor ids being unique (they are the primary key), the
    by_department counts of [get_attendance_summary] sum to the number of
    records in the range whose professor_id is a registered professor's id;
    that is at most total_attendance, and equal to it when every record in
    the range belongs to a registered professor. *)
Theorem summary_departments_sum_registered a b db :
  NoDup (p_id <$> professors db) →
  let s := get_attendance_summary a b db in
  let registered r := ar_professor_id r ∈ p_id <$> professors db in
  Py.sum_values (by_department s) =
    Sql.count (filter registered (in_range a b (attendance_records db)))
  ∧ Py.sum_values (by_department s) ≤ total_attendance s
  ∧ ((∀ r, r ∈ in_range a b (attendance_records db) → registered r) →
     Py.sum_values (by_department s) = total_attendance s).
Proof.
  intros Hps s registered. subst s registered. simpl.
  rewrite sum_values_dict_of_rows
    by (rewrite group_by_keys; apply NoDup_remove_dups).
  rewrite sum_group_by_count. unfold Sql.count.
  rewrite length_join_in_range by done.
  split; [done|]. split.
  - apply inj_le, length_filter.
  - intros Hall. by rewrite filter_all.
Qed.

Lemma summary_departments_sum_registered_witness :
  let s := get_attendance_summary "2024-01-01" "2024-01-02" two_departments in
  total_attendance s = 3 ∧
  by_department s !! "A" = Some 2 ∧ by_department s !! "B" = Some 1 ∧
  Py.sum_values (by_department s) = total_attendance s.
Proof.
  intros s. subst s.
  split; [by vm_compute|]. split; [by vm_compute|]. split; [by vm_compute|].
  refine (proj2 (proj2 (summary_departments_sum_registered
                          "2024-01-01" "2024-01-02" two_departments _)) _).
  - apply (bool_decide_unpack _). by vm_compute.
  - apply Forall_forall. apply (bool_decide_unpack _). by vm_compute.
Defined.

(** ** The dashboard *)

(** What the recent_attendance dictionary holds: a day is a key exactly when
    it is not before the cut-off date and some record has that date; the
    value is the number of records of the day. The query has no upper end. *)
Lemma recent_attendance_lookup now db s day n :
  get_dashboard_stats now db = Py.Return s →
  dash_recent_attendance s !! day = Some n ↔
  Sql.text_ge day (Py.date_minus_7_days now) ∧
  day ∈ ar_date <$> attendance_records db ∧
  n = Sql.count (filter (λ r, ar_date r = day) (attendance_records db)).
Proof.
  intros (_ & _ & _ & _ & ->)%dashboard_stats_returned. unfold recent_rows.
  rewrite dict_of_rows_lookup.
  2:{ rewrite order_by_perm, group_by_keys. apply NoDup_remove_dups. }
  rewrite order_by_perm, group_by_elem, list_elem_of_fmap.
  rewrite list_filter_filter.
  split.
  - intros [(r & -> & [Hge Hr]%list_elem_of_filter) ->].
    split; [done|]. split; [apply list_elem_of_fmap; eauto|].
    f_equal. apply list_filter_iff. intros r'. split; [tauto|].
    by intros ->.
  - intros (Hge & (r & -> & Hr)%list_elem_of_fmap & ->). split.
    + exists r. split; [done|]. by apply list_elem_of_filter.
    + f_equal. apply list_filter_iff. intros r'. split; [|tauto].
      by intros ->.
Qed.

(** C3: recent_attendance is meant to hold the days from D-7 to D and no
    other. Evaluated on 2024-03-05 over a store with one check-in that day
    and one dated 2024-04-05, it has an entry for each of them: the later
    day lies after D and is a key all the same. *)
Theorem dashboard_recent_attendance_keeps_later_days :
  ∃ s, get_dashboard_stats clock_2024_03_05 dated_next_month = Py.Return s ∧
  Py.strftime_date clock_2024_03_05 = "2024-03-05" ∧
  Py.date_minus_7_days clock_2024_03_05 = "2024-02-27" ∧
  dash_recent_attendance s !! "2024-03-05" = Some 1 ∧
  dash_recent_attendance s !! "2024-04-05" = Some 1 ∧
  String.ltb (Py.strftime_date clock_2024_03_05) "2024-04-05" = true ∧
  dash_month_attendance s = 1.
Proof.
  eexists. split; [by vm_compute|]. vm_compute. repeat split.
Qed.

(** ** Ordering *)

Lemma insert_sorted_Sorted {A} (le : A → A → bool) (x : A) (l : list A) :
  (∀ a b, le a b = false → le b a = true) →
  Sorted (λ a b, le a b) l → Sorted (λ a b, le a b) (Sql.insert_sorted le x l).
Proof.
  intros Htotal. induction 1 as [|y l Hl IH Hhd]; simpl.
  - by repeat constructor.
  - destruct (le x y) eqn:Hxy.
    + constructor; [by constructor|]. constructor. by rewrite Hxy.
    + constructor; [done|].
      destruct l as [|z l]; simpl.
      * constructor. by rewrite (Htotal _ _ Hxy).
      * destruct (le x z); constructor.
        -- by rewrite (Htotal _ _ Hxy).
        -- by inversion Hhd.
Qed.

Lemma order_by_Sorted {A} (le : A → A → bool) (rows : list A) :
  (∀ a b, le a b = false → le b a = true) →
  Sorted (λ a b, le a b) (Sql.order_by le rows).
Proof.
  intros Htotal. induction rows as [|x rows IH]; simpl; [constructor|].
  by apply insert_sorted_Sorted.
Qed.

Lemma order_by_elem {A} (le : A → A → bool) (rows : list A) (x : A) :
  x ∈ Sql.order_by le rows ↔ x ∈ rows.
Proof. by rewrite order_by_perm. Qed.

Lemma leb_false_flip (a b : string) :
  String.leb a b = false → String.leb b a = true.
Proof. intros Hab. destruct (String.leb_total a b); congruence. Qed.

Lemma Sorted_fmap {A B} (f : A → B) (R : B → B → Prop) (l : list A) :
  Sorted (λ a b, R (f a) (f b)) l → Sorted R (f <$> l).
Proof.
  induction 1 as [|x l Hl IH Hhd]; simpl; constructor; [done|].
  destruct Hhd; simpl; by constructor.
Qed.

Lemma Sorted_take {A} (R : A → A → Prop) (n : nat) (l : list A) :
  Sorted R l → Sorted R (take n l).
Proof.
  intros Hl. revert n. induction Hl as [|x l Hl IH Hhd]; intros [|n]; simpl;
    try constructor; [by apply IH|].
  destruct Hhd, n; simpl; by constructor.
Qed.

(** ** Professors: look-up and listing *)

Lemma get_professor_None id db :
  get_professor id db = None ↔ ∀ p, p ∈ professors db → p_id p ≠ id.
Proof.
  unfold get_professor. rewrite head_None, filter_nil_iff.
  apply forall_proper; intros p. apply forall_proper; intros _.
  rewrite holds_eq_some. split; [intros Hne Heq | intros Hne [= Heq]]; by apply Hne; f_equal.
Qed.

(** X1: registering a professor whose id and email are not in use makes
    [get_professor] return the new row for that id, leaves every other id's
    look-up as it was, and the new professor is listed by
    [get_all_professors] without a department filter. *)
Theorem add_professor_then_get_professor d now db :
  (∀ p, p ∈ professors db →
        p_id p ≠ pd_id d ∧ p_email p ≠ Some (pd_email_or_empty d)) →
  let db' := (add_professor d now db).2 in
  let row :=
    {| p_id := pd_id d; p_name := pd_name d; p_department := pd_department d;
       p_contact := Some (default "" (pd_contact d));
       p_email := Some (pd_email_or_empty d);
       p_date_registered := Py.strftime_date now;
       p_is_active := Some 1; p_password_hash := None;
       p_role := Some "professor" |} in
  get_professor (pd_id d) db' = Some row ∧
  (∀ id, id ≠ pd_id d → get_professor id db' = get_professor id db) ∧
  row ∈ get_all_professors None db'.
Proof.
  intros Hfresh db' row.
  assert (professors db' = (professors db ++ [row])%list) as Hps.
  { subst db' row. unfold add_professor.
    rewrite (proj2 (select_professor_None _ _ _) Hfresh).
    destruct (insert_professor_fresh (pd_id d) (pd_name d) (pd_department d)
                (default "" (pd_contact d)) (pd_email_or_empty d)
                (Py.strftime_date now) db Hfresh) as (db1 & -> & Hps & _).
    simpl. exact Hps. }
  split; [|split].
  - unfold get_professor. rewrite Hps, filter_app.
    rewrite (proj2 (filter_nil_iff _ (professors db))).
    + rewrite filter_cons_True; [done|]. by apply holds_eq_some.
    + intros p Hp [= Heq]%holds_eq_some. by destruct (Hfresh p Hp).
  - intros id Hid. unfold get_professor. rewrite Hps, filter_app.
    rewrite (filter_cons_False _ row); [by rewrite filter_nil, app_nil_r|].
    intros [= Heq]%holds_eq_some. by apply Hid.
  - simpl. apply order_by_elem. unfold active_professors.
    apply list_elem_of_filter. split; [by apply holds_eq_some|].
    rewrite Hps. apply elem_of_app. right. by left.
Qed.

Lemma add_professor_then_get_professor_witness :
  p_name <$> get_professor "P2"
    (add_professor newcomer clock_2024_03_05 registered_without_email).2
  = Some "Bob".
Proof.
  destruct (add_professor_then_get_professor newcomer clock_2024_03_05
              registered_without_email) as (Hget & _).
  - intros p Hp. apply list_elem_of_singleton in Hp as ->. by split.
  - exact (f_equal (fmap p_name) Hget).
Defined.

(** X2: [get_professor] answers [None] exactly when no professor row has
    the id, and otherwise a stored row carrying that id; it does so for
    deactivated professors as well. *)
Theorem get_professor_found_or_none id db :
  (get_professor id db = None ↔ id ∉ p_id <$> professors db) ∧
  (∀ p, get_professor id db = Some p → p ∈ professors db ∧ p_id p = id) ∧
  (∀ p, p ∈ professors db → p_id p = id → is_Some (get_professor id db)).
Proof.
  split; [|split].
  - rewrite get_professor_None, list_elem_of_fmap. split.
    + intros Hno (p & -> & Hp). by apply (Hno p).
    + intros Hno p Hp <-. apply Hno. eauto.
  - intros p Hp. apply head_Some_elem_of in Hp.
    apply list_elem_of_filter in Hp as [[= Heq]%holds_eq_some Hp]. done.
  - intros p Hp Hid. destruct (get_professor id db) eqn:Hget; [done|].
    by destruct (proj1 (get_professor_None id db) Hget p Hp).
Qed.

Lemma get_professor_found_or_none_witness :
  is_Some (get_professor "P2" strangers) ∧ get_professor "X1" strangers = None.
Proof.
  split.
  - apply (proj2 (proj2 (get_professor_found_or_none "P2" strangers))
             (mk_professor "P2" "Bob" "Math" (Some "bob@example.org") 0)).
    + right. by left.
    + reflexivity.
  - apply (proj1 (get_professor_found_or_none "X1" strangers)).
    apply (bool_decide_unpack _). by vm_compute.
Defined.

(** X3: [get_all_professors] lists exactly the professors with
    is_active = 1 (of the given department, when a non-empty one is given; an
    empty-string filter is no filter), each as often as it is stored, in
    ascending order of name. *)
Theorem get_all_professors_active_sorted department_filter db :
  get_all_professors department_filter db ≡ₚ
    filter (λ p, p_is_active p = Some 1 ∧
                 (Py.truthy department_filter →
                  department_filter = Some (p_department p)))
      (professors db)
  ∧ Sorted (λ x y, String.leb (p_name x) (p_name y))
      (get_all_professors department_filter db)
  ∧ get_all_professors (Some "") db = get_all_professors None db.
Proof.
  split; [|split; [|done]].
  - unfold get_all_professors, active_professors.
    destruct (Py.truthy department_filter) eqn:Ht; rewrite order_by_perm.
    + match goal with
      | |- filter ?P ?l ≡ₚ filter ?Q ?l => rewrite (list_filter_iff P Q l); [done|]
      end.
      intros p. cbn beta. rewrite holds_and, holds_eq_some, holds_eq. split.
      * intros [(a & [= <-] & ->) Hact]. done.
      * intros [Hact Hdep]. split; [|done]. exists (p_department p).
        split; [done|]. by apply Hdep.
    + match goal with
      | |- filter ?P ?l ≡ₚ filter ?Q ?l => rewrite (list_filter_iff P Q l); [done|]
      end.
      intros p. cbn beta. rewrite holds_eq_some. split; [|tauto].
      intros Hact. split; [done|]. by intros [].
  - unfold get_all_professors.
    destruct (Py.truthy department_filter);
      apply (order_by_Sorted name_asc); intros a b; apply leb_false_flip.
Qed.

(** ** Attendance: repeated check-ins and row ids *)

Lemma next_rowid_gt table ids db i : i ∈ ids → i < next_rowid table ids db.
Proof.
  unfold next_rowid. generalize (default 0 (sqlite_sequence db !! table)).
  intros base. induction ids as [|j ids IH]; [by intros ?%elem_of_nil|].
  intros [->|Hi]%elem_of_cons; simpl; [lia|].
  specialize (IH Hi). lia.
Qed.

Lemma next_rowid_fresh table ids db : next_rowid table ids db ∉ ids.
Proof. intros Hin. apply (next_rowid_gt table ids db) in Hin. lia. Qed.

Lemma record_attendance_bindable d db :
  Sql.bindable (ad_session_id d) = true →
  record_attendance d db =
  match head (select_attendance (ad_professor_id d) (ad_session_id d)
                (ad_date d) db) with
  | Some _ => ((false, "Attendance already recorded for this session"), db)
  | None =>
    ((true, "Attendance recorded successfully"),
     log_action "RECORD_ATTENDANCE"
       ("Professor " ++ ad_professor_id d ++ " attendance recorded") None
       (insert_attendance (ad_professor_id d) (ad_session_id d) (ad_date d)
          (ad_time_in d) (default "Present" (ad_status d))
          (default "" (ad_venue d)) (default "" (ad_session_type d))
          (default "" (ad_remarks d)) db))
  end.
Proof. intros Hb. unfold record_attendance. by rewrite Hb. Qed.

(** X4: when the data names a session (by an id that fits 64 bits),
    calling [record_attendance] a second time with the same data is always
    refused and changes nothing; if no row for that (professor_id,
    session_id, date) existed before, the first call succeeds and exactly
    one such row exists afterwards. A session id that does not fit 64 bits
    makes every call fail and store nothing. *)
Theorem record_attendance_session_second_refused d s db :
  ad_session_id d = Some s →
  (Sql.int64 s = false →
   record_attendance d db =
     ((false, "Error recording attendance: " ++
              "Python int too large to convert to SQLite INTEGER"), db)) ∧
  (Sql.int64 s = true →
  let same r :=
    ar_professor_id r = ad_professor_id d ∧ ar_session_id r = Some s ∧
    ar_date r = ad_date d in
  let first := record_attendance d db in
  let second := record_attendance d first.2 in
  second = ((false, "Attendance already recorded for this session"), first.2) ∧
  (filter same (attendance_records db) = [] →
   first.1 = (true, "Attendance recorded successfully") ∧
   length (filter same (attendance_records second.2)) = 1%nat)).
Proof.
  intros Hs. split.
  { intros Hover. unfold record_attendance. rewrite Hs. cbn [Sql.bindable].
    by rewrite Hover. }
  intros Hint same first second. subst first second.
  assert (Sql.bindable (ad_session_id d) = true) as Hbind by (by rewrite Hs).
  destruct (head (select_attendance (ad_professor_id d) (ad_session_id d)
                    (ad_date d) db)) as [i|] eqn:Hhead.
  - assert (record_attendance d db =
              ((false, "Attendance already recorded for this session"), db))
      as Hfirst by (rewrite record_attendance_bindable by done; by rewrite Hhead).
    rewrite !Hfirst. cbn [fst snd]. rewrite Hfirst. split; [done|].
    intros Hnone. exfalso. unfold select_attendance in Hhead.
    apply head_Some_elem_of, list_elem_of_fmap in Hhead as (r & _ & Hr).
    apply list_elem_of_filter in Hr as [Hr Hin].
    apply holds_same_attendance in Hr as (Hp & (s' & Hs1 & Hs2) & Hd).
    eapply (filter_nil_not_elem_of same); [exact Hnone| |exact Hin].
    subst same. simpl. rewrite Hs in Hs2. by simplify_eq.
  - pose (db' := log_action "RECORD_ATTENDANCE"
                   ("Professor " ++ ad_professor_id d ++ " attendance recorded")
                   None
                   (insert_attendance (ad_professor_id d) (ad_session_id d)
                      (ad_date d) (ad_time_in d)
                      (default "Present" (ad_status d))
                      (default "" (ad_venue d))
                      (default "" (ad_session_type d))
                      (default "" (ad_remarks d)) db)).
    assert (record_attendance d db =
              ((true, "Attendance recorded successfully"), db'))
      as Hfirst by (rewrite record_attendance_bindable by done; by rewrite Hhead).
    rewrite !Hfirst. cbn [fst snd].
    assert (∃ r, attendance_records db' = (attendance_records db ++ [r])%list
                 ∧ same r) as (r & Hrs & Hr).
    { eexists. split; [reflexivity|]. subst same. simpl. by rewrite Hs. }
    assert (record_attendance d db' =
              ((false, "Attendance already recorded for this session"), db'))
      as Hsecond.
    { destruct Hr as (Hp & Hsid & Hd).
      apply (record_attendance_duplicate_session d s r db'); try done.
      rewrite Hrs. apply elem_of_app. right. by left. }
    rewrite Hsecond. split; [done|]. intros Hnone. split; [done|].
    cbn [snd]. rewrite Hrs, filter_app, Hnone.
    by rewrite filter_cons_True.
Qed.

Lemma record_attendance_session_second_refused_witness :
  (record_attendance session_check_in
     (record_attendance session_check_in empty_db).2).1
  = (false, "Attendance already recorded for this session").
Proof.
  destruct (record_attendance_session_second_refused session_check_in 4
              empty_db) as [_ Hin]; [reflexivity|].
  destruct (Hin eq_refl) as [Hsecond _].
  exact (f_equal fst Hsecond).
Defined.

(** X5: when the data names no session, [record_attendance] succeeds
    whatever the table holds, the professors table included, and appends one
    row: the given professor_id, date and time_in, a NULL session_id, status
    "Present" unless given, and empty strings for venue, session_type and
    remarks left out. *)
Theorem record_attendance_without_session_always_inserts d db :
  ad_session_id d = None →
  ∃ db', record_attendance d db =
      ((true, "Attendance recorded successfully"), db') ∧
    professors db' = professors db ∧
    attendance_records db' = (attendance_records db ++
      [{| ar_id := next_rowid "attendance_records"
                     (ar_id <$> attendance_records db) db;
          ar_professor_id := ad_professor_id d; ar_session_id := None;
          ar_date := ad_date d; ar_time_in := ad_time_in d;
          ar_time_out := None;
          ar_status := Some (default "Present" (ad_status d));
          ar_venue := Some (default "" (ad_venue d));
          ar_remarks := Some (default "" (ad_remarks d));
          ar_session_type := Some (default "" (ad_session_type d));
          ar_device_id := None |}])%list.
Proof.
  intros Hs. unfold record_attendance. rewrite Hs, select_attendance_null.
  simpl. eexists. split; [reflexivity|]. by simpl.
Qed.

Lemma record_attendance_without_session_always_inserts_witness :
  ∃ db', record_attendance walk_in two_departments =
      ((true, "Attendance recorded successfully"), db') ∧
    length (attendance_records db') = 4%nat.
Proof.
  destruct (record_attendance_without_session_always_inserts walk_in
              two_departments) as (db' & Heq & _ & Hrs).
  - reflexivity.
  - exists db'. split; [exact Heq|]. by rewrite Hrs.
Defined.

(** X6: [record_attendance] keeps the ids of attendance_records distinct:
    a new row gets an id above every id in the table. *)
Theorem record_attendance_keeps_ids_unique d db :
  NoDup (ar_id <$> attendance_records db) →
  NoDup (ar_id <$> attendance_records (record_attendance d db).2) ∧
  ∀ r, r ∈ attendance_records (record_attendance d db).2 →
       r ∈ attendance_records db ∨
       ∀ r', r' ∈ attendance_records db → ar_id r' < ar_id r.
Proof.
  intros Hids. unfold record_attendance.
  destruct (negb _); [split; [done|by left]|].
  destruct (head _); [split; [done|by left]|]. simpl. split.
  - rewrite fmap_app. apply NoDup_snoc; [done|]. apply next_rowid_fresh.
  - intros r [Hr|Hr]%elem_of_app; [by left|].
    apply list_elem_of_singleton in Hr as ->.
    right. intros r' Hr'. simpl. apply next_rowid_gt.
    apply list_elem_of_fmap. eauto.
Qed.

Lemma record_attendance_keeps_ids_unique_witness :
  NoDup (ar_id <$> attendance_records
                     (record_attendance walk_in two_departments).2).
Proof.
  apply (record_attendance_keeps_ids_unique walk_in two_departments).
  apply (bool_decide_unpack _). by vm_compute.
Defined.

(** ** Listing attendance records *)

Lemma holds_and_when (b : bool) (c acc : Sql.tv) :
  Sql.holds (and_when b c acc) ↔ Sql.holds acc ∧ (b → Sql.holds c).
Proof.
  unfold and_when. destruct b.
  - rewrite holds_and. split; [intros [? ?]; by split|]. intros [? Hc].
    split; [done|]. by apply Hc.
  - split; [intros ?; by split|]. by intros [? _].
Qed.

Lemma join_professors_elem rs ps r p :
  (r, p) ∈ join_professors rs ps ↔
  r ∈ rs ∧ p ∈ ps ∧ ar_professor_id r = p_id p.
Proof.
  unfold join_professors. rewrite list_elem_of_bind. split.
  - intros (r' & (p' & [= -> ->] & Hp)%list_elem_of_fmap & Hr).
    apply list_elem_of_filter in Hp as [Hid Hp]. done.
  - intros (Hr & Hp & Hid). exists r. split; [|done].
    apply list_elem_of_fmap. exists p. split; [done|].
    by apply list_elem_of_filter.
Qed.

Lemma Sorted_weaken {A} (R S : A → A → Prop) (l : list A) :
  (∀ x y, R x y → S x y) → Sorted R l → Sorted S l.
Proof.
  intros HRS. induction 1 as [|x l Hl IH Hhd]; constructor; [done|].
  destruct Hhd; constructor. by apply HRS.
Qed.

(** X7: a row is returned by [get_attendance_records] exactly when it pairs
    an attendance record with a professor row of the same id and passes
    every filter key that is set to a non-empty value: date, professor_id,
    session_type, department, and the inclusive range when both start_date
    and end_date are set. A record whose professor_id is not registered is
    in no row. *)
Theorem get_attendance_records_rows f db row :
  row ∈ get_attendance_records (Some f) db ↔
  ∃ r p, r ∈ attendance_records db ∧ p ∈ professors db ∧
    ar_professor_id r = p_id p ∧
    row = {| row_record := r; row_name := p_name p;
             row_department := p_department p |} ∧
    (Py.truthy (f_date f) → f_date f = Some (ar_date r)) ∧
    (Py.truthy (f_professor_id f) → f_professor_id f = Some (ar_professor_id r)) ∧
    (Py.truthy (f_session_type f) → ar_session_type r = f_session_type f) ∧
    (Py.truthy (f_department f) → f_department f = Some (p_department p)) ∧
    (Py.truthy (f_start_date f) → Py.truthy (f_end_date f) →
     ∃ a b, f_start_date f = Some a ∧ f_end_date f = Some b ∧
            Sql.between a b (ar_date r)).
Proof.
  unfold get_attendance_records. rewrite list_elem_of_fmap.
  assert (∀ r p, Sql.holds (where_filters (Some f) (r, p)) ↔
    (Py.truthy (f_date f) → f_date f = Some (ar_date r)) ∧
    (Py.truthy (f_professor_id f) → f_professor_id f = Some (ar_professor_id r)) ∧
    (Py.truthy (f_session_type f) → ar_session_type r = f_session_type f) ∧
    (Py.truthy (f_department f) → f_department f = Some (p_department p)) ∧
    (Py.truthy (f_start_date f) → Py.truthy (f_end_date f) →
     ∃ a b, f_start_date f = Some a ∧ f_end_date f = Some b ∧
            Sql.between a b (ar_date r))) as Hwhere.
  { intros r p. unfold where_filters. rewrite !holds_and_when.
    assert (∀ (x : string) (o : option string),
              Py.truthy o → (Sql.holds (Sql.eq (Some x) o) ↔ o = Some x)) as Heq.
    { intros x o (s & -> & _)%truthy_Some. rewrite holds_eq_some.
      split; congruence. }
    split.
    - intros ((((([] & Hd) & Hp) & Hs) & Hdep) & Hrange).
      split; [intros Ht; by apply Heq, Hd|].
      split; [intros Ht; by apply Heq, Hp|].
      split.
      { intros Ht. specialize (Hs Ht).
        destruct (truthy_Some _ Ht) as (s & Hsome & _). rewrite Hsome in *.
        by apply holds_eq_some in Hs. }
      split; [intros Ht; by apply Heq, Hdep|].
      intros Ha Hb.
      destruct (truthy_Some _ Ha) as (a & Hsa & _).
      destruct (truthy_Some _ Hb) as (b & Hsb & _).
      exists a, b. split; [done|]. split; [done|].
      specialize (Hrange (proj2 (andb_True _ _) (conj Ha Hb))).
      rewrite Hsa, Hsb in Hrange. simpl in Hrange.
      by destruct (Sql.between a b (ar_date r)).
    - intros (Hd & Hp & Hs & Hdep & Hrange).
      split; [split; [split; [split; [split; [done|]|]|]|]|].
      + intros Ht. by apply Heq, Hd.
      + intros Ht. by apply Heq, Hp.
      + intros Ht. destruct (truthy_Some _ Ht) as (s & Hsome & _).
        rewrite Hsome. apply holds_eq_some. rewrite <- Hsome. by apply Hs.
      + intros Ht. by apply Heq, Hdep.
      + intros [Ha Hb]%andb_True.
        destruct (Hrange Ha Hb) as (a & b & -> & -> & Hin). simpl.
        by destruct (Sql.between a b (ar_date r)). }
  split.
  - intros ([r p] & -> & Hin). apply order_by_elem in Hin.
    apply list_elem_of_filter in Hin as [Hw Hin].
    apply join_professors_elem in Hin as (Hr & Hp & Hid).
    exists r, p. do 3 (split; [done|]). split; [done|]. by apply Hwhere.
  - intros (r & p & Hr & Hp & Hid & -> & Hf). exists (r, p). split; [done|].
    apply order_by_elem, list_elem_of_filter. split; [by apply Hwhere|].
    by apply join_professors_elem.
Qed.

Lemma get_attendance_records_rows_witness :
  let f := {| f_date := Some "2024-03-05"; f_professor_id := None;
              f_session_type := None; f_department := Some "";
              f_start_date := Some "2024-01-01"; f_end_date := None |} in
  {| row_record := mk_record 2 "P1" None "2024-03-05"; row_name := "Ada";
     row_department := "Math" |}
  ∈ get_attendance_records (Some f) (store strangers_and_ada).
Proof.
  apply get_attendance_records_rows.
  exists (mk_record 2 "P1" None "2024-03-05"),
         (mk_professor "P1" "Ada" "Math" (Some "ada@example.org") 1).
  split; [right; by left|]. split; [by left|].
  split; [reflexivity|]. split; [reflexivity|].
  split; [reflexivity|]. split; [by intros []|]. split; [by intros []|].
  split; [by intros []|]. intros _ [].
Defined.

(** X8: in [get_attendance_records] a filter key set to the empty string
    counts as not set, and a start_date without an end_date (or the
    reverse) restricts nothing: the result is the one for the filters with
    those keys removed. With no usable key the result is the unfiltered
    listing. *)
Theorem get_attendance_records_ignores_unset_keys f db :
  let keep (o : option string) := if Py.truthy o then o else None in
  let both := Py.truthy (f_start_date f) && Py.truthy (f_end_date f) in
  get_attendance_records (Some f) db =
  get_attendance_records
    (Some {| f_date := keep (f_date f);
             f_professor_id := keep (f_professor_id f);
             f_session_type := keep (f_session_type f);
             f_department := keep (f_department f);
             f_start_date := if both then f_start_date f else None;
             f_end_date := if both then f_end_date f else None |}) db
  ∧ (Py.truthy (f_date f) = false → Py.truthy (f_professor_id f) = false →
     Py.truthy (f_session_type f) = false → Py.truthy (f_department f) = false →
     both = false →
     get_attendance_records (Some f) db = get_attendance_records None db).
Proof.
  intros keep both. subst keep both. cbn beta.
  unfold get_attendance_records. split.
  - do 2 f_equal. apply list_filter_iff. intros [r p].
    unfold where_filters. cbn [f_date f_professor_id f_session_type
      f_department f_start_date f_end_date].
    destruct (Py.truthy (f_date f)) eqn:H1,
             (Py.truthy (f_professor_id f)) eqn:H2,
             (Py.truthy (f_session_type f)) eqn:H3,
             (Py.truthy (f_department f)) eqn:H4,
             (Py.truthy (f_start_date f)) eqn:H5,
             (Py.truthy (f_end_date f)) eqn:H6;
      cbn [andb Py.truthy]; rewrite ?H1, ?H2, ?H3, ?H4, ?H5, ?H6; done.
  - intros H1 H2 H3 H4 H5. do 2 f_equal. apply list_filter_iff.
    intros [r p]. unfold where_filters. by rewrite H1, H2, H3, H4, H5.
Qed.

Lemma get_attendance_records_ignores_unset_keys_witness :
  get_attendance_records
    (Some {| f_date := Some ""; f_professor_id := None;
             f_session_type := None; f_department := None;
             f_start_date := Some "2030-01-01"; f_end_date := None |})
    (store strangers_and_ada)
  = get_attendance_records None (store strangers_and_ada).
Proof.
  by apply (proj2 (get_attendance_records_ignores_unset_keys _ _)).
Defined.

Lemma date_time_desc_total x y :
  date_time_desc x y = false → date_time_desc y x = true.
Proof.
  unfold date_time_desc. rewrite (String.compare_antisym (ar_date x.1)).
  destruct (String.compare (ar_date y.1) (ar_date x.1)); simpl; try done.
  apply leb_false_flip.
Qed.

(** X9: the rows of [get_attendance_records] come latest date first, and
    within one date latest time_in first. *)
Theorem get_attendance_records_latest_first f db :
  Sorted (λ x y,
            String.ltb (ar_date (row_record y)) (ar_date (row_record x)) ∨
            (ar_date (row_record x) = ar_date (row_record y) ∧
             String.leb (ar_time_in (row_record y)) (ar_time_in (row_record x))))
    (get_attendance_records f db).
Proof.
  unfold get_attendance_records. apply Sorted_fmap. cbn [row_record].
  eapply Sorted_weaken; [|apply (order_by_Sorted date_time_desc),
                            date_time_desc_total].
  intros x y. unfold date_time_desc, String.ltb. cbn beta.
  destruct (String.compare (ar_date y.1) (ar_date x.1)) eqn:Hc; try done.
  - intros Hle. right. split; [|done]. symmetry. by apply String.compare_eq_iff.
  - intros _. by left.
Qed.

(** ** More on the summary *)

Lemma string_leb_trans (a b c : string) :
  String.leb a b = true → String.leb b c = true → String.leb a c = true.
Proof.
  unfold String.leb. revert b c.
  induction a as [|x a IH]; intros [|y b] [|z c]; simpl; try done.
  unfold Ascii.compare.
  destruct (N.compare_spec (N_of_ascii x) (N_of_ascii y)) as [Hxy|Hxy|Hxy],
           (N.compare_spec (N_of_ascii y) (N_of_ascii z)) as [Hyz|Hyz|Hyz],
           (N.compare_spec (N_of_ascii x) (N_of_ascii z)) as [Hxz|Hxz|Hxz];
    try done; try lia.
  apply IH.
Qed.

Lemma between_inverted (a b x : string) :
  String.ltb b a = true → Sql.between a b x = false.
Proof.
  unfold Sql.between, String.ltb. intros Hba.
  destruct (String.leb a x) eqn:Hax, (String.leb x b) eqn:Hxb; try done.
  pose proof (string_leb_trans a x b Hax Hxb) as Hab.
  unfold String.leb in Hab. rewrite String.compare_antisym in Hab.
  by destruct (String.compare b a).
Qed.

(** X10: the by_session_type counts of [get_attendance_summary] always sum
    to total_attendance: both are taken over the attendance records alone,
    with records that carry no session_type counted under the null key. *)
Theorem summary_session_types_sum_total a b db :
  let s := get_attendance_summary a b db in
  Py.sum_values (by_session_type s) = total_attendance s.
Proof.
  simpl. rewrite sum_values_dict_of_rows
    by (rewrite group_by_keys; apply NoDup_remove_dups).
  apply sum_group_by_count.
Qed.

(** X11: top_professors of [get_attendance_summary] has at most ten
    entries, in descending order of count, each with a count of at least
    one. *)
Theorem summary_top_professors_shape a b db :
  let top := top_professors (get_attendance_summary a b db) in
  (length top ≤ 10)%nat ∧
  Sorted (λ x y, y.2 ≤ x.2) top ∧
  ∀ name n, (name, n) ∈ top → 1 ≤ n.
Proof.
  simpl. split; [|split].
  - rewrite length_take. lia.
  - apply Sorted_take.
    eapply Sorted_weaken;
      [|apply (order_by_Sorted (λ x y : string * Z, y.2 <=? x.2))].
    + intros x y Hle. cbn beta in Hle. apply Is_true_true in Hle. lia.
    + intros x y. cbn beta. lia.
  - intros name n Hin. apply subseteq_take, order_by_elem in Hin.
    apply list_elem_of_fmap in Hin as ([k v] & Hv & Hin). simpl in Hv. subst v.
    apply group_by_elem in Hin as [Hk [= Hname Hn]].
    apply list_elem_of_fmap in Hk as (x & -> & Hx).
    rewrite Hn. unfold Sql.count.
    assert (x ∈ filter (λ r : attendance_record * professor,
                          ar_professor_id r.1 = ar_professor_id x.1)
                  (filter (λ x0 : attendance_record * professor,
                             Sql.between a b (ar_date x0.1))
                     (join_professors (attendance_records db) (professors db))))
      as Hmem by (by apply list_elem_of_filter).
    destruct (filter _ _); [by apply elem_of_nil in Hmem|]. simpl. lia.
Qed.

(** X12: a range whose end lies before its start selects nothing:
    [get_attendance_summary] then reports a total of 0, no department, no
    session type and no professor. *)
Theorem summary_inverted_range_empty a b db :
  String.ltb b a = true →
  let s := get_attendance_summary a b db in
  total_attendance s = 0 ∧ by_department s = ∅ ∧ by_session_type s = ∅ ∧
  top_professors s = [].
Proof.
  intros Hba s. subst s. unfold get_attendance_summary, in_range.
  cbn [total_attendance by_department by_session_type top_professors].
  rewrite (proj2 (filter_nil_iff _ (attendance_records db))).
  2:{ intros r _ Hr. by rewrite (between_inverted a b _ Hba) in Hr. }
  rewrite (proj2 (filter_nil_iff _ (join_professors _ _))).
  2:{ intros x _ Hx. by rewrite (between_inverted a b _ Hba) in Hx. }
  done.
Qed.

Lemma summary_inverted_range_empty_witness :
  total_attendance
    (get_attendance_summary "2024-01-02" "2024-01-01" two_departments) = 0.
Proof.
  by apply (summary_inverted_range_empty "2024-01-02" "2024-01-01"
              two_departments).
Defined.

(** ** Daily statistics by department *)

Lemma left_join_attendance_some date ps rs p r :
  (p, Some r) ∈ left_join_attendance date ps rs ↔
  p ∈ ps ∧ r ∈ rs ∧ p_id p = ar_professor_id r ∧ ar_date r = date.
Proof.
  unfold left_join_attendance. rewrite list_elem_of_bind. split.
  - intros (p' & Hin & Hp').
    destruct (filter _ rs) as [|m ms] eqn:Hms.
    + by apply list_elem_of_singleton in Hin.
    + apply list_elem_of_fmap in Hin as (r' & [= -> ->] & Hr).
      rewrite <- Hms in Hr. apply list_elem_of_filter in Hr as [[? ?] ?]. done.
  - intros (Hp & Hr & Hid & Hd). exists p. split; [|done].
    assert (r ∈ filter (λ r, p_id p = ar_professor_id r ∧ ar_date r = date) rs)
      as Hin by (by apply list_elem_of_filter).
    destruct (filter _ rs) as [|m ms]; [by apply elem_of_nil in Hin|].
    apply list_elem_of_fmap. eauto.
Qed.


(** The active professors of a department who have a record on a date. *)
Lemma department_count date db k :
  Sql.count_distinct
    (λ x : professor * option attendance_record, ar_professor_id <$> x.2)
    (filter (λ x, p_department x.1 = k)
       (filter (λ x, Sql.holds (Sql.eq (p_is_active x.1) (Some 1)))
          (left_join_attendance date (professors db) (attendance_records db))))
  = Z.of_nat (size (list_to_set
      (p_id <$> filter (λ p, p_department p = k ∧ p_id p ∈ seen_on date db)
                  (active_professors db)) : gset string)).
Proof.
  unfold Sql.count_distinct. rewrite length_remove_dups_size.
  do 2 f_equal. apply set_eq. intros i.
  rewrite !elem_of_list_to_set, list_elem_of_omap, list_elem_of_fmap. split.
  - intros ([p o] & Hin & Ho). simpl in Ho.
    destruct o as [r|]; [|done]. injection Ho as <-.
    apply list_elem_of_filter in Hin as [Hk Hin].
    apply list_elem_of_filter in Hin as [Hact Hin]. simpl in Hk, Hact.
    apply left_join_attendance_some in Hin as (Hp & Hr & Hid & Hd).
    exists p. split; [done|]. apply list_elem_of_filter. split.
    + split; [done|]. unfold seen_on. apply elem_of_list_to_set.
      apply list_elem_of_fmap. exists r. split; [done|].
      by apply list_elem_of_filter.
    + by apply list_elem_of_filter.
  - intros (p & -> & Hin).
    apply list_elem_of_filter in Hin as [[Hk Hseen] Hin].
    apply list_elem_of_filter in Hin as [Hact Hp].
    unfold seen_on in Hseen.
    apply elem_of_list_to_set, list_elem_of_fmap in Hseen as (r & Hid & Hr).
    apply list_elem_of_filter in Hr as [Hd Hr].
    exists (p, Some r). split; [|simpl; by rewrite Hid].
    do 2 (apply list_elem_of_filter; split; [done|]).
    by apply left_join_attendance_some.
Qed.



Lemma sum_fmap_le {A} (f g : A → Z) (l : list A) :
  (∀ x, x ∈ l → f x ≤ g x) →
  foldr Z.add 0 (f <$> l) ≤ foldr Z.add 0 (g <$> l).
Proof.
  induction l as [|x l IH]; intros Hle; [done|].
  rewrite !fmap_cons. cbn [foldr].
  pose proof (Hle x (list_elem_of_here _ _)).
  assert (foldr Z.add 0 (f <$> l) ≤ foldr Z.add 0 (g <$> l)).
  { apply IH. intros y Hy. apply Hle. by right. }
  lia.
Qed.

(** X14: the by_department counts of [get_daily_attendance_stats] never add
    up to more than total_professors, whatever ids the attendance records
    carry (attended_today has no such bound). *)
Theorem daily_stats_departments_within_headcount date now db s :
  get_daily_attendance_stats date now db = Py.Return s →
  Py.sum_values (ds_by_department s) ≤ ds_total_professors s.
Proof.
  intros (_ & -> & _ & _ & -> & _)%daily_stats_returned.
  set (day := if Py.truthy date then default "" date else Py.strftime_date now).
  rewrite sum_values_dict_of_rows
    by (rewrite group_by_keys; apply NoDup_remove_dups).
  unfold Sql.group_by. rewrite <- list_fmap_compose.
  set (ks := remove_dups _).
  set (attended := filter (λ p, p_id p ∈ seen_on day db) (active_professors db)).
  transitivity (foldr Z.add 0
    ((λ k, Sql.count (filter (λ p, p_department p = k) attended)) <$> ks)).
  - apply sum_fmap_le. intros k _. cbn [compose snd].
    rewrite department_count. unfold Sql.count. apply inj_le.
    rewrite <- length_remove_dups_size.
    etransitivity; [apply length_remove_dups_le|].
    rewrite length_fmap. subst attended. by rewrite list_filter_filter.
  - rewrite sum_counts_by_key by apply NoDup_remove_dups.
    unfold Sql.count. apply inj_le.
    etransitivity; [apply length_filter|]. apply length_filter.
Qed.

Lemma daily_stats_departments_within_headcount_witness :
  ∃ s, get_daily_attendance_stats (Some "2024-03-05") clock_2024_03_09 strangers
       = Py.Return s ∧
       Py.sum_values (ds_by_department s) ≤ 1 ∧ ds_attended_today s = 2.
Proof.
  destruct (daily_stats_returns (Some "2024-03-05") clock_2024_03_09 strangers)
    as [s Hs]; [by vm_compute|].
  exists s. split; [done|].
  pose proof (daily_stats_departments_within_headcount _ _ _ _ Hs) as Hle.
  apply daily_stats_returned in Hs as (_ & Htotal & Hatt & _).
  rewrite Htotal in Hle. split; [exact Hle|]. rewrite Hatt. by vm_compute.
Defined.

(** ** Sessions *)

Lemma get_active_sessions_elem now db s :
  s ∈ get_active_sessions now db ↔
  s ∈ attendance_sessions db ∧ as_is_active s = Some 1 ∧
  as_date s = Py.strftime_date now.
Proof.
  unfold get_active_sessions.
  rewrite order_by_elem, list_elem_of_filter, holds_and, !holds_eq_some.
  split.
  - intros [[Hact [= Hd]] Hs]. done.
  - intros (Hs & Hact & Hd). by rewrite Hd.
Qed.

(** X15: [get_active_sessions] lists exactly the sessions with
    is_active = 1 whose date is today's date, in ascending order of
    start_time; sessions of other days are never listed. *)
Theorem get_active_sessions_today_sorted now db :
  (∀ s, s ∈ get_active_sessions now db ↔
        s ∈ attendance_sessions db ∧ as_is_active s = Some 1 ∧
        as_date s = Py.strftime_date now) ∧
  Sorted (λ x y, String.leb (as_start_time x) (as_start_time y))
    (get_active_sessions now db).
Proof.
  split; [intros s; apply get_active_sessions_elem|].
  apply (order_by_Sorted start_time_asc). intros a b. apply leb_false_flip.
Qed.

(** X16: [create_attendance_session] succeeds and returns an id above the
    id of every stored session; the new session is active, so
    [get_active_sessions] lists it from then on exactly when its date is
    today's, next to the sessions listed before. *)
Theorem create_attendance_session_fresh_and_listed d now db :
  let r := create_attendance_session d db in
  let id := r.1.2 in
  let row :=
    {| as_id := id; as_session_type := sd_session_type d;
       as_venue := sd_venue d; as_remarks := Some (default "" (sd_remarks d));
       as_date := sd_date d; as_start_time := sd_start_time d;
       as_end_time := sd_end_time d;
       as_created_by := Some (default "system" (sd_created_by d));
       as_qr_code_data := Some (default "" (sd_qr_code_data d));
       as_is_active := Some 1 |} in
  r.1 = (true, "Session created successfully", id) ∧
  (∀ s, s ∈ attendance_sessions db → as_id s < id) ∧
  (∀ s, s ∈ get_active_sessions now r.2 ↔
        s ∈ get_active_sessions now db ∨
        (s = row ∧ sd_date d = Py.strftime_date now)).
Proof.
  cbn zeta. split; [done|]. split.
  - intros s Hs. simpl. apply next_rowid_gt. apply list_elem_of_fmap. eauto.
  - intros s. rewrite !get_active_sessions_elem. simpl.
    rewrite elem_of_app, list_elem_of_singleton. split.
    + intros ([Hs| ->] & Hact & Hd); [by left | by right].
    + intros [(Hs & Hact & Hd) | [-> Hd]]; [by split; [left|]|].
      split; [by right | done].
Qed.

Lemma create_attendance_session_fresh_and_listed_witness :
  let d := {| sd_session_type := "Lecture"; sd_venue := "Hall A";
              sd_remarks := None; sd_date := "2024-03-05";
              sd_start_time := "09:00"; sd_end_time := None;
              sd_created_by := None; sd_qr_code_data := None |} in
  let r := create_attendance_session d empty_db in
  r.1 = (true, "Session created successfully", 1) ∧
  as_id <$> get_active_sessions clock_2024_03_05
              (create_attendance_session d r.2).2 = [1; 2] ∧
  l_details <$> system_logs r.2 = [Some "Created session 1"].
Proof.
  intros d r.
  pose proof (create_attendance_session_fresh_and_listed d clock_2024_03_05
                empty_db) as (Hres & _ & _).
  split; [exact Hres|]. split; reflexivity.
Defined.

(** ** Course assignments *)

Lemma select_assignment_None pid cid c :
  head (select_assignment pid cid c) = None ↔
  ∀ a, a ∈ professor_courses c →
       ¬ (pc_professor_id a = pid ∧ pc_course_id a = cid).
Proof.
  unfold select_assignment. rewrite head_fmap_filter_None.
  apply forall_proper; intros a. apply forall_proper; intros _.
  rewrite holds_and, !holds_eq_some. split.
  - intros Hno [Hp Hc]. apply Hno. by rewrite Hp, Hc.
  - intros Hno [[= Hp] [= Hc]]. by apply Hno.
Qed.

Lemma join_courses_elem pcs cs a crs :
  (a, crs) ∈ join_courses pcs cs ↔
  a ∈ pcs ∧ crs ∈ cs ∧ pc_course_id a = c_id crs.
Proof.
  unfold join_courses. rewrite list_elem_of_bind. split.
  - intros (a' & (c' & [= -> ->] & Hc)%list_elem_of_fmap & Ha).
    apply list_elem_of_filter in Hc as [Hid Hc]. done.
  - intros (Ha & Hc & Hid). exists a. split; [|done].
    apply list_elem_of_fmap. exists crs. split; [done|].
    by apply list_elem_of_filter.
Qed.

Lemma length_filter_key {A K} `{EqDecision K} (f : A → K) (l : list A) (k : K) :
  NoDup (f <$> l) → k ∈ f <$> l →
  length (filter (λ x, k = f x) l) = 1%nat.
Proof.
  induction l as [|x l IH]; [by intros _ ?%elem_of_nil|].
  rewrite fmap_cons, NoDup_cons. intros [Hx Hl] Hk.
  rewrite filter_cons. destruct (decide (k = f x)) as [->|Hne].
  - simpl. f_equal. apply length_zero_iff_nil, filter_nil_iff.
    intros y Hy Heq. apply Hx. rewrite Heq. apply list_elem_of_fmap. eauto.
  - apply IH; [done|]. by apply elem_of_cons in Hk as [?|?].
Qed.

Lemma assign_course_bindable pid cid schedule room c :
  Sql.int64 cid = true →
  assign_course_to_professor pid cid schedule room c =
  match head (select_assignment pid cid c) with
  | Some _ => ((false, "Course already assigned to this professor"), c)
  | None =>
    let id := next_rowid "professor_courses" (pc_id <$> professor_courses c)
                (tables c) in
    ((true, "Course assigned successfully"),
     {| tables :=
          {| professors := professors (tables c);
             attendance_records := attendance_records (tables c);
             attendance_sessions := attendance_sessions (tables c);
             courses := courses (tables c);
             admins := admins (tables c);
             system_logs := system_logs (tables c);
             sqlite_sequence := bump "professor_courses" id (tables c) |};
        professor_courses := professor_courses c ++
          [{| pc_id := id; pc_professor_id := pid; pc_course_id := cid;
              pc_schedule := schedule; pc_room := room |}] |})
  end.
Proof. intros Hb. unfold assign_course_to_professor. by rewrite Hb. Qed.

(** X17: assigning the same (professor_id, course_id) pair a second time
    is refused and changes nothing, also when the schedule or room differ;
    if the pair was not assigned before, the first call succeeds and exactly
    one assignment row for the pair exists afterwards. This is for a
    course id that fits 64 bits; any other makes the call fail and store
    nothing. *)
Theorem assign_course_second_refused pid cid schedule room schedule' room' c :
  (Sql.int64 cid = false →
   assign_course_to_professor pid cid schedule room c =
     ((false, "Error assigning course: " ++
              "Python int too large to convert to SQLite INTEGER"), c)) ∧
  (Sql.int64 cid = true →
  let same a := pc_professor_id a = pid ∧ pc_course_id a = cid in
  let first := assign_course_to_professor pid cid schedule room c in
  let second := assign_course_to_professor pid cid schedule' room' first.2 in
  second = ((false, "Course already assigned to this professor"), first.2) ∧
  (filter same (professor_courses c) = [] →
   first.1 = (true, "Course assigned successfully") ∧
   length (filter same (professor_courses second.2)) = 1%nat)).
Proof.
  split.
  { intros Hover. unfold assign_course_to_professor. by rewrite Hover. }
  intros Hint same first second. subst first second.
  destruct (head (select_assignment pid cid c)) as [i|] eqn:Hhead.
  - assert (∀ s r, assign_course_to_professor pid cid s r c =
              ((false, "Course already assigned to this professor"), c))
      as Hfirst
      by (intros; rewrite assign_course_bindable by done; by rewrite Hhead).
    rewrite !Hfirst. cbn [fst snd]. rewrite ?Hfirst. split; [done|].
    intros Hnone. exfalso. unfold select_assignment in Hhead.
    apply head_Some_elem_of, list_elem_of_fmap in Hhead as (a & _ & Ha).
    apply list_elem_of_filter in Ha as [Hh Ha].
    apply holds_and in Hh as [[= Hp]%holds_eq_some [= Hc]%holds_eq_some].
    eapply (filter_nil_not_elem_of same); [exact Hnone| |exact Ha]. done.
  - pose (new := {| pc_id := next_rowid "professor_courses"
                               (pc_id <$> professor_courses c) (tables c);
                    pc_professor_id := pid; pc_course_id := cid;
                    pc_schedule := schedule; pc_room := room |}).
    pose (c' :=
      {| tables :=
           {| professors := professors (tables c);
              attendance_records := attendance_records (tables c);
              attendance_sessions := attendance_sessions (tables c);
              courses := courses (tables c);
              admins := admins (tables c);
              system_logs := system_logs (tables c);
              sqlite_sequence :=
                bump "professor_courses" (pc_id new) (tables c) |};
         professor_courses := professor_courses c ++ [new] |}).
    assert (assign_course_to_professor pid cid schedule room c =
              ((true, "Course assigned successfully"), c')) as Hfirst
      by (rewrite assign_course_bindable by done; by rewrite Hhead).
    rewrite !Hfirst. cbn [fst snd].
    assert (assign_course_to_professor pid cid schedule' room' c' =
              ((false, "Course already assigned to this professor"), c'))
      as Hsecond.
    { rewrite assign_course_bindable by done.
      destruct (head (select_assignment pid cid c')) eqn:Hhead'; [done|].
      exfalso. apply (proj1 (select_assignment_None _ _ _) Hhead' new); [|done].
      apply elem_of_app. right. by left. }
    rewrite Hsecond. split; [done|]. intros Hnone. split; [done|].
    cbn [snd].
    change (professor_courses c') with (professor_courses c ++ [new])%list.
    rewrite filter_app, Hnone. by rewrite filter_cons_True.
Qed.

(** X18: after a successful assignment (a pair not assigned before, a
    course id that fits 64 bits) the schedules of other professors
    are as before; the professor's schedule gains a row for each stored
    course with that id (exactly one more row when course ids are distinct
    and the course exists), and gains nothing when no course has the id:
    the assignment is stored all the same. *)
Theorem assign_course_then_schedule pid cid schedule room c :
  Sql.int64 cid = true →
  (∀ a, a ∈ professor_courses c →
        ¬ (pc_professor_id a = pid ∧ pc_course_id a = cid)) →
  let r := assign_course_to_professor pid cid schedule room c in
  r.1 = (true, "Course assigned successfully") ∧
  (∀ pid', pid' ≠ pid →
     get_professor_schedule pid' r.2 = get_professor_schedule pid' c) ∧
  (∀ crs, crs ∈ courses (tables c) → c_id crs = cid →
     {| sr_course_code := c_course_code crs;
        sr_course_name := c_course_name crs;
        sr_schedule := schedule; sr_room := room;
        sr_department := c_department crs |} ∈ get_professor_schedule pid r.2) ∧
  (NoDup (c_id <$> courses (tables c)) → cid ∈ c_id <$> courses (tables c) →
     length (get_professor_schedule pid r.2) =
     S (length (get_professor_schedule pid c))) ∧
  (cid ∉ c_id <$> courses (tables c) →
     get_professor_schedule pid r.2 = get_professor_schedule pid c ∧
     length (professor_courses r.2) = S (length (professor_courses c))).
Proof.
  intros Hint Hfresh r. subst r. rewrite assign_course_bindable by done.
  rewrite (proj2 (select_assignment_None _ _ _) Hfresh). cbn zeta.
  cbn [fst snd].
  set (new := {| pc_id := _; pc_professor_id := pid |}).
  unfold get_professor_schedule. cbn [tables professor_courses courses].
  assert (∀ q, filter (λ x : professor_course * course, pc_professor_id x.1 = q)
                 (join_courses (professor_courses c ++ [new]) (courses (tables c)))
             = (filter (λ x : professor_course * course, pc_professor_id x.1 = q)
                  (join_courses (professor_courses c) (courses (tables c))) ++
                filter (λ x : professor_course * course, pc_professor_id x.1 = q)
                  ((λ crs, (new, crs)) <$>
                     filter (λ crs, cid = c_id crs) (courses (tables c))))%list)
    as Hsplit.
  { intros q. unfold join_courses.
    by rewrite bind_app, bind_singleton, filter_app. }
  split; [done|]. split; [|split; [|split]].
  - intros pid' Hne. rewrite Hsplit.
    rewrite (proj2 (filter_nil_iff _
               ((λ crs, (new, crs)) <$>
                  filter (λ crs, cid = c_id crs) (courses (tables c)))));
      [by rewrite app_nil_r|].
    intros [a crs] (crs' & [= -> ->] & _)%list_elem_of_fmap Heq.
    simpl in Heq. by apply Hne.
  - intros crs Hcrs Hid. apply list_elem_of_fmap. exists (new, crs).
    split; [done|]. apply order_by_elem, list_elem_of_filter. split; [done|].
    apply join_courses_elem. split; [|by split].
    apply elem_of_app. right. by left.
  - intros Hnodup Hin. rewrite !length_fmap, !order_by_perm, Hsplit, length_app.
    rewrite (filter_all _
               ((λ crs, (new, crs)) <$>
                  filter (λ crs, cid = c_id crs) (courses (tables c))))
      by (by intros [a crs] (crs' & [= -> ->] & _)%list_elem_of_fmap).
    rewrite length_fmap, (length_filter_key c_id) by done. lia.
  - intros Hout. split; [|by rewrite length_app; simpl; lia].
    rewrite Hsplit.
    rewrite (proj2 (filter_nil_iff _ (courses (tables c)))).
    + by rewrite fmap_nil, filter_nil, app_nil_r.
    + intros crs Hcrs Heq. apply Hout. rewrite Heq.
      apply list_elem_of_fmap. eauto.
Qed.

Lemma assign_course_second_refused_witness :
  let c := {| tables := (add_course algebra empty_db).2;
              professor_courses := [] |} in
  let first := assign_course_to_professor "P1" 1 (Some "Mon 09:00") None c in
  (assign_course_to_professor "P1" 1 (Some "Tue 10:00") (Some "R2") first.2).1
    = (false, "Course already assigned to this professor") ∧
  length (professor_courses first.2) = 1%nat.
Proof.
  intros c first.
  destruct (assign_course_second_refused "P1" 1 (Some "Mon 09:00") None
              (Some "Tue 10:00") (Some "R2") c) as [_ Hin].
  destruct (Hin eq_refl) as [Hsecond Hone].
  split; [exact (f_equal fst Hsecond)|].
  destruct (Hone eq_refl) as [_ Hlen]. reflexivity.
Defined.

Lemma assign_course_then_schedule_witness :
  let c := {| tables := (add_course algebra empty_db).2;
              professor_courses := [] |} in
  sr_course_code <$>
    get_professor_schedule "P1"
      (assign_course_to_professor "P1" 1 (Some "Mon 09:00") None c).2
    = ["MATH101"] ∧
  get_professor_schedule "P1"
    (assign_course_to_professor "P1" 7 None None c).2 = [].
Proof.
  intros c. split.
  - destruct (assign_course_then_schedule "P1" 1 (Some "Mon 09:00") None c)
      as (_ & _ & _ & Hlen & _).
    + reflexivity.
    + intros a Ha. by apply elem_of_nil in Ha.
    + assert (length (get_professor_schedule "P1"
                (assign_course_to_professor "P1" 1 (Some "Mon 09:00") None c).2)
              = 1%nat) as Hone.
      { apply Hlen; apply (bool_decide_unpack _); by vm_compute. }
      reflexivity.
  - destruct (assign_course_then_schedule "P1" 7 None None c)
      as (_ & _ & _ & _ & Hnone).
    + reflexivity.
    + intros a Ha. by apply elem_of_nil in Ha.
    + destruct Hnone as [Hsame _].
      * apply (bool_decide_unpack _). by vm_compute.
      * exact Hsame.
Defined.

(** ** Admins: creating and signing in *)




(** X20: [create_admin] under a username that is already stored fails with
    "Username already exists" and changes nothing: the stored row keeps its
    password hash, so the earlier password still signs in and the new one
    does not replace it. *)
Theorem create_admin_duplicate_keeps_first
    (digest : string → string) username password full_name role db a :
  a ∈ admins db → a_username a = username →
  create_admin digest username password full_name role db =
    ((false, "Username already exists"), db).
Proof.
  intros Ha Hu. unfold create_admin, insert_admin.
  rewrite bool_decide_eq_true_2; [done|].
  apply list_elem_of_fmap. eauto.
Qed.

Lemma create_admin_duplicate_keeps_first_witness :
  let r := create_admin toy_digest "root" "other" "Intruder" None one_admin in
  r = ((false, "Username already exists"), one_admin) ∧
  (authenticate_admin toy_digest "root" "s3cret" r.2).1.1 = true ∧
  (authenticate_admin toy_digest "root" "other" r.2).1.1 = false.
Proof.
  intros r. subst r.
  rewrite (create_admin_duplicate_keeps_first toy_digest "root" "other"
             "Intruder" None one_admin
             {| a_id := 1; a_username := "root";
                a_password_hash := toy_digest "s3cret";
                a_full_name := "Operator"; a_role := Some "admin";
                a_permissions := None |}); [|by left|reflexivity].
  split; [reflexivity|]. split; reflexivity.
Defined.

(** ** The audit log *)

(** X21: which operations leave an audit row. [add_professor],
    [record_attendance] and [authenticate_admin] append exactly one row,
    named ADD_PROFESSOR, RECORD_ATTENDANCE and ADMIN_LOGIN, when they
    succeed and none when they fail; [create_attendance_session] always
    appends one CREATE_SESSION row; [add_course], [create_admin] and
    [assign_course_to_professor] never append a row. No operation changes or
    removes a row already in the log. *)
Theorem audit_log_rows (digest : string → string) db :
  let logged (ok : bool) (action : string) (db' : database) :=
    l_action <$> system_logs db' =
      ((l_action <$> system_logs db) ++ (if ok then [action] else []))%list ∧
    system_logs db `prefix_of` system_logs db' in
  (∀ d now, let r := add_professor d now db in
            logged r.1.1 "ADD_PROFESSOR" r.2) ∧
  (∀ d, let r := record_attendance d db in
        logged r.1.1 "RECORD_ATTENDANCE" r.2) ∧
  (∀ u pw, let r := authenticate_admin digest u pw db in
           logged r.1.1 "ADMIN_LOGIN" r.2) ∧
  (∀ d, logged true "CREATE_SESSION" (create_attendance_session d db).2) ∧
  (∀ d, system_logs (add_course d db).2 = system_logs db) ∧
  (∀ u pw name role,
     system_logs (create_admin digest u pw name role db).2 = system_logs db) ∧
  (∀ pid cid schedule room pcs,
     system_logs (tables (assign_course_to_professor pid cid schedule room
                            {| tables := db; professor_courses := pcs |}).2)
     = system_logs db).
Proof.
  assert (∀ l : list log_entry, l_action <$> l = ((l_action <$> l) ++ [])%list)
    as Hnil by (intros; by rewrite app_nil_r).
  cbn zeta. repeat split.
  - unfold add_professor. destruct (head _); [apply Hnil|].
    unfold insert_professor.
    case_bool_decide; [apply Hnil|]. case_bool_decide; [apply Hnil|].
    simpl. by rewrite fmap_app.
  - unfold add_professor. destruct (head _); [done|].
    unfold insert_professor.
    case_bool_decide; [done|]. case_bool_decide; [done|].
    simpl. by apply prefix_app_r.
  - unfold record_attendance. destruct (negb _); [apply Hnil|].
    destruct (head _); [apply Hnil|].
    simpl. by rewrite fmap_app.
  - unfold record_attendance. destruct (negb _); [done|].
    destruct (head _); [done|].
    simpl. by apply prefix_app_r.
  - unfold authenticate_admin. destruct (head _); [|apply Hnil].
    simpl. by rewrite fmap_app.
  - unfold authenticate_admin. destruct (head _); [|done].
    simpl. by apply prefix_app_r.
  - simpl. by rewrite fmap_app.
  - simpl. by apply prefix_app_r.
  - intros d. unfold add_course, insert_course.
    destruct (negb _); [done|]. by case_bool_decide.
  - intros u pw name role. unfold create_admin, insert_admin.
    by case_bool_decide.
  - intros pid cid schedule room pcs. unfold assign_course_to_professor.
    destruct (negb _); [done|]. by destruct (head _).
Qed.

(** ** Invariants kept by the writes *)

Lemma create_attendance_session_wf d db :
  db_wf db → db_wf (create_attendance_session d db).2.
Proof. intros Hwf. simpl. apply log_action_wf. destruct Hwf. by split. Qed.

Lemma authenticate_admin_wf digest u pw db :
  db_wf db → db_wf (authenticate_admin digest u pw db).2.
Proof.
  intros Hwf. unfold authenticate_admin. destruct (head _); [|done].
  by apply log_action_wf.
Qed.

(** X22: the uniqueness constraints of the schema (professor id and email,
    course code, admin username) hold after every write when they held
    before it: a write that would break one is refused and changes
    nothing. *)
Theorem writes_keep_schema_constraints (digest : string → string) db :
  db_wf db →
  (∀ d now, db_wf (add_professor d now db).2) ∧
  (∀ d, db_wf (record_attendance d db).2) ∧
  (∀ d, db_wf (add_course d db).2) ∧
  (∀ u pw name role, db_wf (create_admin digest u pw name role db).2) ∧
  (∀ d, db_wf (create_attendance_session d db).2) ∧
  (∀ u pw, db_wf (authenticate_admin digest u pw db).2).
Proof.
  intros Hwf. split; [|split; [|split; [|split; [|split]]]]; intros.
  - by apply add_professor_wf.
  - by apply record_attendance_wf.
  - by apply add_course_wf.
  - by apply create_admin_wf.
  - by apply create_attendance_session_wf.
  - by apply authenticate_admin_wf.
Qed.

Lemma writes_keep_schema_constraints_witness :
  db_wf (add_professor ada_again clock_2024_03_05
           (add_professor newcomer clock_2024_03_05 empty_db).2).2.
Proof.
  apply (proj1 (writes_keep_schema_constraints toy_digest _
                  (proj1 (writes_keep_schema_constraints toy_digest empty_db
                            empty_db_wf) newcomer clock_2024_03_05))).
Defined.

(** X23: the generated ids of courses, sessions and admins stay distinct:
    [add_course], [create_attendance_session] and [create_admin] give a new
    row an id that no stored row of the table has. *)
Theorem generated_ids_stay_unique (digest : string → string) db :
  (NoDup (c_id <$> courses db) →
   ∀ d, NoDup (c_id <$> courses (add_course d db).2)) ∧
  (NoDup (as_id <$> attendance_sessions db) →
   ∀ d, NoDup (as_id <$> attendance_sessions (create_attendance_session d db).2)) ∧
  (NoDup (a_id <$> admins db) →
   ∀ u pw name role,
     NoDup (a_id <$> admins (create_admin digest u pw name role db).2)).
Proof.
  repeat split.
  - intros Hids d. unfold add_course, insert_course.
    destruct (negb _); [done|].
    case_bool_decide; [done|]. simpl. rewrite fmap_app.
    apply NoDup_snoc; [done|]. apply next_rowid_fresh.
  - intros Hids d. simpl. rewrite fmap_app.
    apply NoDup_snoc; [done|]. apply next_rowid_fresh.
  - intros Hids u pw name role. unfold create_admin, insert_admin.
    case_bool_decide; [done|]. simpl. rewrite fmap_app.
    apply NoDup_snoc; [done|]. apply next_rowid_fresh.
Qed.

Lemma generated_ids_stay_unique_witness :
  NoDup (c_id <$> courses (add_course algebra (add_course algebra empty_db).2).2) ∧
  NoDup (a_id <$> admins (create_admin toy_digest "dean" "pw" "Dean" None
                            one_admin).2).
Proof.
  split.
  - apply (proj1 (generated_ids_stay_unique toy_digest _)).
    apply (bool_decide_unpack _). by vm_compute.
  - apply (proj2 (proj2 (generated_ids_stay_unique toy_digest one_admin))).
    apply (bool_decide_unpack _). by vm_compute.
Defined.

(** ** More on the dashboard *)








(** X25: in the dictionary [get_dashboard_stats] returns, the values of
    recent_attendance add up to the number of attendance records dated on
    or after the cut-off day (seven days before today); every such record
    has its date as a key, and every entry counts at least one record. *)
Theorem dashboard_recent_attendance_total now db s :
  get_dashboard_stats now db = Py.Return s →
  let recent r := Sql.text_ge (ar_date r) (Py.date_minus_7_days now) in
  Py.sum_values (dash_recent_attendance s) =
    Sql.count (filter recent (attendance_records db)) ∧
  (∀ r, r ∈ attendance_records db → recent r →
        is_Some (dash_recent_attendance s !! ar_date r)) ∧
  (∀ day n, dash_recent_attendance s !! day = Some n → 1 ≤ n).
Proof.
  intros Hs. cbn zeta. split; [|split].
  - apply dashboard_stats_returned in Hs as (_ & _ & _ & _ & ->).
    unfold recent_rows.
    rewrite sum_values_dict_of_rows
      by (rewrite order_by_perm, group_by_keys; apply NoDup_remove_dups).
    rewrite <- (sum_group_by_count ar_date).
    apply sum_perm. by rewrite order_by_perm.
  - intros r Hr Hrecent. eexists.
    apply (recent_attendance_lookup _ _ _ _ _ Hs). split; [done|].
    split; [|done]. apply list_elem_of_fmap. eauto.
  - intros day n Hn.
    apply (recent_attendance_lookup _ _ _ _ _ Hs) in Hn as (_ & Hday & ->).
    apply list_elem_of_fmap in Hday as (r & -> & Hr).
    assert (r ∈ filter (λ r', ar_date r' = ar_date r) (attendance_records db))
      as Hin by (by apply list_elem_of_filter).
    unfold Sql.count. destruct (filter _ _); [by apply elem_of_nil in Hin|].
    simpl. lia.
Qed.

Lemma dashboard_recent_attendance_total_witness :
  ∃ s, get_dashboard_stats clock_2024_03_05 dated_next_month = Py.Return s ∧
       Py.sum_values (dash_recent_attendance s) = 2.
Proof.
  destruct (dashboard_stats_returns clock_2024_03_05 dated_next_month)
    as [s Hs]; [by vm_compute|].
  exists s. split; [done|].
  rewrite (proj1 (dashboard_recent_attendance_total _ _ _ Hs)).
  by vm_compute.
Defined.

(** ** The detailed report *)

Lemma filter_key_at_most_one {A K} (f : A → K) (P : A → Prop)
    `{!∀ x, Decision (P x)} (l : list A) :
  NoDup (f <$> l) → (∀ x y, P x → P y → f x = f y) →
  (length (filter P l) ≤ 1)%nat.
Proof.
  intros Hnodup Hsame. induction l as [|x l IH]; [simpl; lia|].
  rewrite fmap_cons, NoDup_cons in Hnodup. destruct Hnodup as [Hx Hl].
  rewrite filter_cons. destruct (decide (P x)) as [HP|HP]; [|by apply IH].
  rewrite (proj2 (filter_nil_iff P l)); [simpl; lia|].
  intros y Hy HPy. apply Hx. rewrite (Hsame x y HP HPy).
  apply list_elem_of_fmap. eauto.
Qed.

Lemma left_join_sessions_cons x xs ss :
  NoDup (as_id <$> ss) →
  ∃ o, left_join_sessions (x :: xs) ss = (x, o) :: left_join_sessions xs ss ∧
    match o with
    | Some s => s ∈ ss ∧ ar_session_id x.1 = Some (as_id s)
    | None => ∀ s, s ∈ ss → ar_session_id x.1 ≠ Some (as_id s)
    end.
Proof.
  intros Hids. unfold left_join_sessions. rewrite bind_cons.
  pose proof (filter_key_at_most_one as_id
    (λ s, Sql.holds (Sql.eq (ar_session_id x.1) (Some (as_id s)))) ss Hids)
    as Hone.
  destruct (filter _ ss) as [|m ms] eqn:Hms.
  - exists None. split; [done|]. intros s Hs Heq.
    eapply (filter_nil_not_elem_of _ ss s Hms); [|done].
    by apply holds_eq_some.
  - exists (Some m). split.
    + destruct ms as [|m' ms]; [done|]. simpl in Hone.
      assert (S (S (length ms)) ≤ 1)%nat; [|lia]. apply Hone.
      intros a b Ha%holds_eq_some Hb%holds_eq_some. congruence.
    + assert (m ∈ filter (λ s, Sql.holds (Sql.eq (ar_session_id x.1)
                                            (Some (as_id s)))) ss)
        as Hm by (rewrite Hms; by left).
      apply list_elem_of_filter in Hm as [Hm%holds_eq_some Hin]. done.
Qed.

Lemma length_filter_left_join_sessions
    (P : attendance_record * professor → Prop) `{!∀ x, Decision (P x)} xs ss :
  NoDup (as_id <$> ss) →
  length (filter (λ y : attendance_record * professor * option attendance_session,
                    P y.1) (left_join_sessions xs ss))
  = length (filter P xs).
Proof.
  intros Hids. induction xs as [|x xs IH]; [done|].
  destruct (left_join_sessions_cons x xs ss Hids) as (o & -> & _).
  rewrite !filter_cons. simpl.
  destruct (decide (P x)); simpl; by rewrite IH.
Qed.

Lemma left_join_sessions_elem xs ss x o :
  NoDup (as_id <$> ss) →
  (x, o) ∈ left_join_sessions xs ss →
  x ∈ xs ∧
  match o with
  | Some s => s ∈ ss ∧ ar_session_id x.1 = Some (as_id s)
  | None => ∀ s, s ∈ ss → ar_session_id x.1 ≠ Some (as_id s)
  end.
Proof.
  intros Hids. induction xs as [|x' xs IH]; [by intros ?%elem_of_nil|].
  destruct (left_join_sessions_cons x' xs ss Hids) as (o' & -> & Ho').
  intros [[= -> ->]|Hin]%elem_of_cons.
  - split; [by left | done].
  - destruct (IH Hin) as [Hx Ho]. split; [by right | done].
Qed.

Lemma holds_Some (b : bool) : Sql.holds (Some b) ↔ b.
Proof. by destruct b. Qed.

Lemma holds_report_where a b dept r p o :
  Sql.holds (report_where a b dept (r, p, o)) ↔
  Sql.between a b (ar_date r) ∧ (Py.truthy dept → dept = Some (p_department p)).
Proof.
  unfold report_where. rewrite holds_and_when, holds_Some. cbn [fst snd].
  apply and_iff_compat_l. split; intros H Ht; specialize (H Ht).
  - destruct (truthy_Some _ Ht) as (s & -> & _).
    apply holds_eq_some in H. congruence.
  - rewrite H. by apply holds_eq_some.
Qed.

Lemma date_time_asc_total x y :
  date_time_asc x y = false → date_time_asc y x = true.
Proof.
  unfold date_time_asc. rewrite (String.compare_antisym (ar_date y.1.1)).
  destruct (String.compare (ar_date x.1.1) (ar_date y.1.1)); simpl; try done.
  apply leb_false_flip.
Qed.

(** X26: with session ids distinct, [generate_detailed_report] returns one
    row per attendance record of a registered professor in the date range
    (and department, when given): as many rows as [get_attendance_records]
    returns for the same range and department, whether or not the records
    name a session. Its rows come earliest date first, and within a date
    earliest time_in first. *)
Theorem detailed_report_one_row_per_record a b dept db :
  NoDup (as_id <$> attendance_sessions db) → a ≠ "" → b ≠ "" →
  length (generate_detailed_report a b dept db) =
    length (get_attendance_records
              (Some {| f_date := None; f_professor_id := None;
                       f_session_type := None; f_department := dept;
                       f_start_date := Some a; f_end_date := Some b |}) db)
  ∧ Sorted (λ x y, String.ltb (rr_date x) (rr_date y) ∨
                   (rr_date x = rr_date y ∧
                    String.leb (rr_time_in x) (rr_time_in y)))
      (generate_detailed_report a b dept db).
Proof.
  intros Hids Ha Hb. split.
  - unfold generate_detailed_report, get_attendance_records.
    rewrite !length_fmap, !order_by_perm.
    rewrite <- (length_filter_left_join_sessions
                  (λ x, Sql.holds (where_filters _ x)) _
                  (attendance_sessions db) Hids).
    f_equal. apply list_filter_iff. intros [[r p] o].
    rewrite holds_report_where. cbn [fst]. unfold where_filters.
    rewrite !holds_and_when.
    cbn [f_date f_professor_id f_session_type f_department f_start_date
         f_end_date Py.truthy default from_option].
    rewrite !bool_decide_eq_false_2 by done. cbn [negb andb id].
    split.
    + intros [Hin Hdep]. repeat split; try done.
      * intros Ht. destruct (truthy_Some _ Ht) as (s & Hs & _).
        rewrite (Hdep Ht). by apply holds_eq_some.
      * intros _. simpl. by destruct (Sql.between a b (ar_date r)).
    + intros [[_ Hdep] Hin]. split.
      * specialize (Hin I). simpl in Hin.
        by destruct (Sql.between a b (ar_date r)).
      * intros Ht. specialize (Hdep Ht).
        destruct (truthy_Some _ Ht) as (s & -> & _).
        apply holds_eq_some in Hdep. congruence.
  - unfold generate_detailed_report. apply Sorted_fmap.
    cbn [rr_date rr_time_in].
    eapply Sorted_weaken; [|apply (order_by_Sorted date_time_asc),
                              date_time_asc_total].
    intros x y. unfold date_time_asc, String.ltb. cbn beta.
    destruct (String.compare (ar_date x.1.1) (ar_date y.1.1)) eqn:Hc; try done.
    + intros Hle. right. split; [|done]. by apply String.compare_eq_iff.
    + intros _. by left.
Qed.

Lemma detailed_report_one_row_per_record_witness :
  length (generate_detailed_report "2024-03-01" "2024-03-31" None
            (store strangers_and_ada)) = 1%nat.
Proof.
  destruct (detailed_report_one_row_per_record "2024-03-01" "2024-03-31" None
              (store strangers_and_ada)) as [Hlen _];
    [apply NoDup_nil_2 | done | done |].
  rewrite Hlen. by vm_compute.
Defined.

